(** * Marksheet analytics: the batch aggregation engine of [App.tsx]

    A shallow embedding of [calculateAverageScore], [calculateClassAverage]
    and [handleAnalyze], with the data model of [types.ts], followed by the
    properties of the aggregation engine and of the batch orchestrator.

    Conventions of the embedding.
    - A JavaScript [number] is an exact rational ([Qc], rationals in lowest
      terms) or one of [Infinity], [-Infinity], [NaN]: arithmetic is exact,
      so binary64 rounding, overflow and the sign of zero are not modelled,
      while division by zero and the absorbing [NaN] are.
    - A string is a [string] of the Standard Library read as ASCII text:
      [trim], [toLowerCase] and [toUpperCase] act on the ASCII white space
      and letters and leave every other character alone.
    - A [Map] is an association list in insertion order, as iteration over
      a JavaScript [Map] is.
    - Array lengths and the contribution counter are [nat]. *)

From Stdlib Require Import String Ascii List Bool Arith ZArith QArith Qcanon Qround.
From Stdlib Require Import Qminmax Qabs Lia Lqa Permutation DecimalString.
Import ListNotations.

Local Close Scope Q_scope.
Local Open Scope string_scope.
Local Open Scope list_scope.
Local Open Scope bool_scope.
Local Open Scope nat_scope.

(** ** JavaScript built-ins used by the program *)

Module JS.

(** *** Numbers *)

Inductive number : Type :=
| Num (q : Qc)
| PosInf
| NegInf
| NaN.

Definition ofZ (z : Z) : number := Num (Q2Qc (inject_Z z)).
Definition ofNat (n : nat) : number := ofZ (Z.of_nat n).

Definition isFinite (x : number) : bool :=
  match x with Num _ => true | _ => false end.

(** [x + y] *)
Definition add (x y : number) : number :=
  match x, y with
  | NaN, _ | _, NaN => NaN
  | Num a, Num b => Num (a + b)%Qc
  | PosInf, NegInf | NegInf, PosInf => NaN
  | PosInf, _ | _, PosInf => PosInf
  | NegInf, _ | _, NegInf => NegInf
  end.

(** [x / y]; a zero divisor is the positive zero, which is what a length or
    a counter can be. *)
Definition div (x y : number) : number :=
  match x, y with
  | NaN, _ | _, NaN => NaN
  | Num a, Num b =>
      match (b ?= 0)%Qc with
      | Eq => match (a ?= 0)%Qc with
              | Eq => NaN
              | Gt => PosInf
              | Lt => NegInf
              end
      | _ => Num (a / b)%Qc
      end
  | Num _, _ => Num 0%Qc
  | PosInf, Num b => match (b ?= 0)%Qc with Lt => NegInf | _ => PosInf end
  | NegInf, Num b => match (b ?= 0)%Qc with Lt => PosInf | _ => NegInf end
  | _, _ => NaN
  end.

(** [Math.round(x)]: the closest integer, a tie going towards [+Infinity],
    that is [floor(x + 1/2)]. *)
Definition roundZ (q : Qc) : Z := Qfloor (q + Q2Qc (1 # 2))%Qc.

Definition Math_round (x : number) : number :=
  match x with
  | Num q => ofZ (roundZ q)
  | _ => x
  end.

(** [Math.max(x, y)] *)
Definition Math_max (x y : number) : number :=
  match x, y with
  | NaN, _ | _, NaN => NaN
  | PosInf, _ | _, PosInf => PosInf
  | NegInf, z | z, NegInf => z
  | Num a, Num b => match (a ?= b)%Qc with Lt => Num b | _ => Num a end
  end.

(** [ToBoolean] on a number: [0] and [NaN] are falsy. *)
Definition truthy (x : number) : bool :=
  match x with
  | Num q => match (q ?= 0)%Qc with Eq => false | _ => true end
  | NaN => false
  | _ => true
  end.

(** [x < y] and [x <= y]; every comparison with [NaN] is false. *)
Definition ltb (x y : number) : bool :=
  match x, y with
  | NaN, _ | _, NaN => false
  | _, NegInf | PosInf, _ => false
  | NegInf, _ | _, PosInf => true
  | Num a, Num b => match (a ?= b)%Qc with Lt => true | _ => false end
  end.

Definition leb (x y : number) : bool :=
  match x, y with
  | NaN, _ | _, NaN => false
  | NegInf, _ | _, PosInf => true
  | _, NegInf | PosInf, _ => false
  | Num a, Num b => match (a ?= b)%Qc with Gt => false | _ => true end
  end.

(** [String(n)] for a length or a counter. *)
Definition natToString (n : nat) : string :=
  NilZero.string_of_uint (Nat.to_uint n).

(** [String(x)] in a template literal. Decimal digits for an integer and
    the names of the three special values, which is all that [Math.round]
    returns; a fraction is written numerator/denominator, the decimal
    expansion of a double having no counterpart over exact rationals. *)
Definition numberToString (x : number) : string :=
  match x with
  | Num q =>
      match Qden q with
      | xH => NilZero.string_of_int (Z.to_int (Qnum q))
      | d => (NilZero.string_of_int (Z.to_int (Qnum q)) ++ "/"
              ++ NilZero.string_of_uint (Pos.to_uint d))%string
      end
  | PosInf => "Infinity"
  | NegInf => "-Infinity"
  | NaN => "NaN"
  end.

(** *** Strings *)

(** White space of [String.prototype.trim] in the ASCII range: TAB, LF, VT,
    FF, CR and SPACE. *)
Definition isWhiteSpace (c : ascii) : bool :=
  let n := nat_of_ascii c in
  ((9 <=? n) && (n <=? 13)) || (n =? 32).

Definition lowerChar (c : ascii) : ascii :=
  let n := nat_of_ascii c in
  if (65 <=? n) && (n <=? 90) then ascii_of_nat (n + 32) else c.

Definition upperChar (c : ascii) : ascii :=
  let n := nat_of_ascii c in
  if (97 <=? n) && (n <=? 122) then ascii_of_nat (n - 32) else c.

Fixpoint toLowerCase (s : string) : string :=
  match s with
  | EmptyString => EmptyString
  | String c r => String (lowerChar c) (toLowerCase r)
  end.

Fixpoint toUpperCase (s : string) : string :=
  match s with
  | EmptyString => EmptyString
  | String c r => String (upperChar c) (toUpperCase r)
  end.

Fixpoint trimStart (s : string) : string :=
  match s with
  | EmptyString => EmptyString
  | String c r => if isWhiteSpace c then trimStart r else s
  end.

Fixpoint trimEnd (s : string) : string :=
  match s with
  | EmptyString => EmptyString
  | String c r =>
      match trimEnd r with
      | EmptyString => if isWhiteSpace c then EmptyString else String c EmptyString
      | r' => String c r'
      end
  end.

Definition trim (s : string) : string := trimEnd (trimStart s).

(** [s.charAt(0)]: the first character as a string, empty on the empty
    string. *)
Definition charAt0 (s : string) : string :=
  match s with
  | EmptyString => EmptyString
  | String c _ => String c EmptyString
  end.

(** [s.slice(1)] *)
Definition slice1 (s : string) : string :=
  match s with
  | EmptyString => EmptyString
  | String _ r => r
  end.

(** [new Error(message)] *)
Record Error : Type := mkError { message : string }.

End JS.

Import JS.

(** ** Data model ([types.ts]) *)

Record SubjectScore : Type := mkSubjectScore {
  subject : string;
  score : number;
  fullMarks : option number
}.

Record AnalysisResult : Type := mkAnalysisResult {
  studentName : string;
  subjects : list SubjectScore;
  totalObtained : number;
  totalPossible : number;
  percentage : number;
  grade : string;
  summary : string;
  feedback : list string
}.

Inductive Status : Type := idle | uploading | processing | success | error.

Record ProcessingState : Type := mkProcessingState {
  status : Status;
  statusMessage : option string
}.

(** ** [calculateAverageScore] *)

(** The argument is optional because the function guards against a missing
    array ([!subjects]) before it looks at the length. *)
Definition calculateAverageScore (subjects : option (list SubjectScore)) : number :=
  match subjects with
  | None => ofZ 0
  | Some subs =>
      if (length subs =? 0)%nat then ofZ 0
      else
        let total := fold_left (fun sum sub => add sum (score sub)) subs (ofZ 0) in
        Math_round (div total (ofNat (length subs)))
  end.

(** ** [calculateClassAverage] *)

(** The value type of [subjectMap]. *)
Record Acc : Type := mkAcc {
  acc_total : number;
  acc_count : nat;
  acc_fullMarks : number
}.

Definition SubjectMap : Type := list (string * Acc).

Fixpoint Map_get (key : string) (m : SubjectMap) : option Acc :=
  match m with
  | [] => None
  | (k, v) :: r => if String.eqb k key then Some v else Map_get key r
  end.

(** [Map.prototype.set]: an existing key keeps its place, a new key goes to
    the end. *)
Fixpoint Map_set (key : string) (val : Acc) (m : SubjectMap) : SubjectMap :=
  match m with
  | [] => [(key, val)]
  | (k, v) :: r =>
      if String.eqb k key then (k, val) :: r else (k, v) :: Map_set key val r
  end.

(** [sub.fullMarks || 100] *)
Definition fullMarksOr100 (sub : SubjectScore) : number :=
  match fullMarks sub with
  | Some m => if truthy m then m else ofZ 100
  | None => ofZ 100
  end.

Definition normKeyOf (name : string) : string := toLowerCase (trim name).

(** The body of the inner [forEach]. *)
Definition addSubject (subjectMap : SubjectMap) (sub : SubjectScore) : SubjectMap :=
  let normKey := normKeyOf (subject sub) in
  let current :=
    match Map_get normKey subjectMap with
    | Some c => c
    | None => mkAcc (ofZ 0) 0 (fullMarksOr100 sub)
    end in
  Map_set normKey
    (mkAcc (add (acc_total current) (score sub))
           (acc_count current + 1)
           (Math_max (acc_fullMarks current) (fullMarksOr100 sub)))
    subjectMap.

(** The three variables the outer [forEach] updates. *)
Record Sums : Type := mkSums {
  totalObtainedSum : number;
  totalPossibleSum : number;
  subjectMap : SubjectMap
}.

(** The body of the outer [forEach]. *)
Definition addResult (st : Sums) (res : AnalysisResult) : Sums :=
  mkSums (add (totalObtainedSum st) (totalObtained res))
         (add (totalPossibleSum st) (totalPossible res))
         (fold_left addSubject (subjects res) (subjectMap st)).

Definition accumulate (results : list AnalysisResult) : Sums :=
  fold_left addResult results (mkSums (ofZ 0) (ofZ 0) []).

(** [key.charAt(0).toUpperCase() + key.slice(1)] *)
Definition capitalize (key : string) : string :=
  (toUpperCase (charAt0 key) ++ slice1 key)%string.

Definition avgSubjectsOf (m : SubjectMap) : list SubjectScore :=
  map (fun '(key, val) =>
         mkSubjectScore (capitalize key)
                        (Math_round (div (acc_total val) (ofNat (acc_count val))))
                        (Some (acc_fullMarks val)))
      m.

Definition classFeedback : list string :=
  [ "Review subjects with averages below 60 for curriculum adjustments.";
    "Identify top performers for advanced modules.";
    "Organize remedial sessions for students significantly below the class average." ].

Definition calculateClassAverage (results : list AnalysisResult)
  : Error + AnalysisResult :=
  if (length results =? 0)%nat then inl (mkError "No results to average")
  else
    let st := accumulate results in
    let avgSubjects := avgSubjectsOf (subjectMap st) in
    let avgPercentage := calculateAverageScore (Some avgSubjects) in
    inr (mkAnalysisResult
           "Class Average"
           avgSubjects
           (Math_round (div (totalObtainedSum st) (ofNat (length results))))
           (Math_round (div (totalPossibleSum st) (ofNat (length results))))
           avgPercentage
           ""
           ("This represents the aggregated performance of "
              ++ natToString (length results)
              ++ " students. The class average score is "
              ++ numberToString avgPercentage ++ ".")%string
           classFeedback).

(** ** [handleAnalyze] *)

(** What a call of [analyzeMarksheet] settles to, as the [then]/[catch]
    pair of [handleAnalyze] tags it. *)
Inductive Settled : Type :=
| fulfilled (value : AnalysisResult)
| rejected (reason : Error).

(** The component state ([useState]). *)
Module App.

Record State : Type := mkState {
  results : list AnalysisResult;
  activeResultIndex : Z;
  classAverageData : option AnalysisResult;
  processingState : ProcessingState
}.

Definition initial : State :=
  mkState [] (-1)%Z None (mkProcessingState idle None).

End App.

(** What a run leaves behind besides the state: the lines written with
    [console.error] and the calls of [calculateClassAverage]. *)
Inductive Event : Type :=
| ConsoleError (text : string) (reason : Error)
| CallClassAverage (arg : list AnalysisResult).

(** Computations over the component state that may throw and that record
    their events. *)
Definition M (A : Type) : Type :=
  App.State -> list Event -> (Error + A) * App.State * list Event.

Definition ret {A} (a : A) : M A := fun st tr => (inr a, st, tr).

Definition bind {A B} (c : M A) (k : A -> M B) : M B :=
  fun st tr =>
    match c st tr with
    | (inr a, st', tr') => k a st' tr'
    | (inl e, st', tr') => (inl e, st', tr')
    end.

Definition tryCatch {A} (c : M A) (handler : Error -> M A) : M A :=
  fun st tr =>
    match c st tr with
    | (inl e, st', tr') => handler e st' tr'
    | r => r
    end.

Definition liftThrowing {A} (r : Error + A) : M A := fun st tr => (r, st, tr).

Definition emit (ev : Event) : M unit := fun st tr => (inr tt, st, tr ++ [ev]).

Notation "x <- c ;; k" := (bind c (fun x => k))
  (at level 61, c at next level, right associativity).
Notation "c ;; k" := (bind c (fun _ => k))
  (at level 61, right associativity).

Definition setResults (v : list AnalysisResult) : M unit :=
  fun st tr =>
    (inr tt,
     App.mkState v (App.activeResultIndex st) (App.classAverageData st)
                 (App.processingState st),
     tr).

Definition setActiveResultIndex (v : Z) : M unit :=
  fun st tr =>
    (inr tt,
     App.mkState (App.results st) v (App.classAverageData st)
                 (App.processingState st),
     tr).

Definition setClassAverageData (v : option AnalysisResult) : M unit :=
  fun st tr =>
    (inr tt,
     App.mkState (App.results st) (App.activeResultIndex st) v
                 (App.processingState st),
     tr).

Definition setProcessingState (v : ProcessingState) : M unit :=
  fun st tr =>
    (inr tt,
     App.mkState (App.results st) (App.activeResultIndex st)
                 (App.classAverageData st) v,
     tr).

Fixpoint forEachM {A S} (body : S -> A -> M S) (l : list A) (s : S) : M S :=
  match l with
  | [] => ret s
  | a :: r => s' <- body s a ;; forEachM body r s'
  end.

(** [err.message || 'Batch processing failed unexpectedly.'] *)
Definition messageOr (err : Error) (default : string) : string :=
  match message err with
  | EmptyString => default
  | m => m
  end.

Section Orchestrator.

(** The extraction client, [services/geminiService], is an external
    collaborator: all that is used of it is what each call settles to. *)
Variable analyzeMarksheet : string -> Settled.

(** The body of [outcomes.forEach], on the pair of [successfulResults] and
    [failureCount]. *)
Definition collect (acc : list AnalysisResult * nat) (outcome : Settled)
  : M (list AnalysisResult * nat) :=
  match outcome with
  | fulfilled value => ret (fst acc ++ [value], snd acc)
  | rejected reason =>
      emit (ConsoleError "Analysis failed for one document:" reason) ;;
      ret (fst acc, snd acc + 1)
  end.

Definition handleAnalyze (images : list string) : M unit :=
  setProcessingState
    (mkProcessingState processing (Some "Initializing batch analysis...")) ;;
  setResults [] ;;
  setClassAverageData None ;;
  tryCatch
    (let outcomes := map analyzeMarksheet images in
     acc <- forEachM collect outcomes ([], 0) ;;
     let successfulResults := fst acc in
     let failureCount := snd acc in
     if 0 <? length successfulResults then
       setResults successfulResults ;;
       emit (CallClassAverage successfulResults) ;;
       average <- liftThrowing (calculateClassAverage successfulResults) ;;
       setClassAverageData (Some average) ;;
       setActiveResultIndex (-1)%Z ;;
       setProcessingState
         (mkProcessingState success
            (if 0 <? failureCount
             then Some ("Processed " ++ natToString (length successfulResults)
                          ++ " documents. " ++ natToString failureCount
                          ++ " failed.")%string
             else None))
     else
       setProcessingState
         (mkProcessingState error
            (Some "Failed to analyze documents. Please check image quality and try again.")))
    (fun err =>
       setProcessingState
         (mkProcessingState error
            (Some (messageOr err "Batch processing failed unexpectedly.")))).

End Orchestrator.

(** ** Vocabulary of the properties *)

(** The larger of two rationals, as [Math_max] picks it. *)
Definition Qcmax (a b : Qc) : Qc :=
  match (a ?= b)%Qc with Lt => b | _ => a end.

Definition keysOf (m : SubjectMap) : list string := map fst m.

Definition hasKey (key : string) (keys : list string) : bool :=
  existsb (String.eqb key) keys.

(** The keys in the order in which they are first seen. *)
Definition seeKey (seen : list string) (key : string) : list string :=
  if hasKey key seen then seen else seen ++ [key].

Definition firstSeen (keys : list string) : list string :=
  fold_left seeKey keys [].

(** The entries of one student list that fall under [key], in input order. *)
Definition contributors (key : string) (subs : list SubjectScore)
  : list SubjectScore :=
  filter (fun sub => String.eqb (normKeyOf (subject sub)) key) subs.

(** The accumulator of a group, from its contributors. *)
Definition accOf (cs : list SubjectScore) : option Acc :=
  match cs with
  | [] => None
  | c :: r =>
      Some (mkAcc (fold_left add (map score cs) (ofZ 0))
                  (length cs)
                  (fold_left Math_max (map fullMarksOr100 r) (fullMarksOr100 c)))
  end.

Definition allSubjects (results : list AnalysisResult) : list SubjectScore :=
  flat_map subjects results.

(** The record built on the non-throwing branch. *)
Definition classAverageOf (results : list AnalysisResult) : AnalysisResult :=
  let st := accumulate results in
  let avgSubjects := avgSubjectsOf (subjectMap st) in
  let avgPercentage := calculateAverageScore (Some avgSubjects) in
  mkAnalysisResult
    "Class Average"
    avgSubjects
    (Math_round (div (totalObtainedSum st) (ofNat (length results))))
    (Math_round (div (totalPossibleSum st) (ofNat (length results))))
    avgPercentage
    ""
    ("This represents the aggregated performance of "
       ++ natToString (length results)
       ++ " students. The class average score is "
       ++ numberToString avgPercentage ++ ".")%string
    classFeedback.







(** The successful results and the failure reasons among the settled
    calls, both in input order. *)
Definition successesOf (outcomes : list Settled) : list AnalysisResult :=
  flat_map (fun o => match o with fulfilled v => [v] | rejected _ => [] end)
           outcomes.

Definition failuresOf (outcomes : list Settled) : list Error :=
  flat_map (fun o => match o with fulfilled _ => [] | rejected e => [e] end)
           outcomes.

Definition failureLines (outcomes : list Settled) : list Event :=
  map (ConsoleError "Analysis failed for one document:") (failuresOf outcomes).

Definition batchFailed : ProcessingState :=
  mkProcessingState error
    (Some "Failed to analyze documents. Please check image quality and try again.").

Definition batchSucceeded (successes failures : nat) : ProcessingState :=
  mkProcessingState success
    (if 0 <? failures
     then Some ("Processed " ++ natToString successes ++ " documents. "
                  ++ natToString failures ++ " failed.")%string
     else None).

Definition isCall (ev : Event) : bool :=
  match ev with CallClassAverage _ => true | ConsoleError _ _ => false end.

Definition isFulfilled (o : Settled) : bool :=
  match o with fulfilled _ => true | rejected _ => false end.

Definition isRejected (o : Settled) : bool := negb (isFulfilled o).

(** The scenario of the specification: three images, the second call
    fails, the first and the third succeed. *)
Definition sampleResult (name : string) : AnalysisResult :=
  mkAnalysisResult name [ mkSubjectScore "Math" (ofZ 80) (Some (ofZ 100)) ]
                   (ofZ 80) (ofZ 100) (ofZ 80) "" "" [].

Definition sampleClient (img : string) : Settled :=
  if String.eqb img "blurred" then rejected (mkError "unreadable")
  else fulfilled (sampleResult img).

Definition scenarioSubjects1 : list SubjectScore :=
  [ mkSubjectScore "Math" (ofZ 80) (Some (ofZ 100));
    mkSubjectScore "Science" (ofZ 90) (Some (ofZ 100)) ].

Definition scenarioSubjects2 : list SubjectScore :=
  [ mkSubjectScore "math" (ofZ 60) None;
    mkSubjectScore "Science" (ofZ 70) (Some (ofZ 100)) ].











(** ** Further built-ins *)

Module JSMore.

(** [x - y] *)
Definition minus (x y : number) : number :=
  match x, y with
  | NaN, _ | _, NaN => NaN
  | Num a, Num b => Num (a - b)%Qc
  | PosInf, PosInf | NegInf, NegInf => NaN
  | PosInf, _ | _, NegInf => PosInf
  | NegInf, _ | _, PosInf => NegInf
  end.

(** The sign of a number that is not [NaN]. *)
Definition signOf (x : number) : comparison :=
  match x with
  | Num q => (q ?= 0)%Qc
  | PosInf => Gt
  | NegInf => Lt
  | NaN => Eq
  end.

(** [x * y] *)
Definition times (x y : number) : number :=
  match x, y with
  | NaN, _ | _, NaN => NaN
  | Num a, Num b => Num (a * b)%Qc
  | _, _ =>
      match signOf x, signOf y with
      | Eq, _ | _, Eq => NaN
      | Gt, Gt | Lt, Lt => PosInf
      | _, _ => NegInf
      end
  end.

(** [Math.min(x, y)] *)
Definition Math_min (x y : number) : number :=
  match x, y with
  | NaN, _ | _, NaN => NaN
  | NegInf, _ | _, NegInf => NegInf
  | PosInf, z | z, PosInf => z
  | Num a, Num b => match (a ?= b)%Qc with Gt => Num b | _ => Num a end
  end.

(** [x > y] *)
Definition gtb (x y : number) : bool := ltb y x.

(** A decimal literal such as [1.1], written numerator over denominator. *)
Definition ofQ (q : Q) : number := Num (Q2Qc q).

(** [a[i]]: [undefined] off the array. *)
Definition arrayAt {A : Type} (a : list A) (i : Z) : option A :=
  if (i <? 0)%Z then None else nth_error a (Z.to_nat i).

(** [a.filter((x, i) => p(x, i))], counting from [start]. *)
Fixpoint filterFrom {A : Type} (p : A -> nat -> bool) (start : nat) (a : list A)
  : list A :=
  match a with
  | [] => []
  | x :: r =>
      if p x start then x :: filterFrom p (S start) r
      else filterFrom p (S start) r
  end.

Definition filterIndexed {A : Type} (p : A -> nat -> bool) (a : list A) : list A :=
  filterFrom p 0 a.

(** [s.split(sep)] for a separator of one character: a string with [n]
    separators gives [n + 1] pieces, the empty string gives one. *)
Fixpoint split (sep : ascii) (s : string) : list string :=
  match s with
  | EmptyString => [EmptyString]
  | String c r =>
      if Ascii.eqb c sep then EmptyString :: split sep r
      else
        match split sep r with
        | [] => [String c EmptyString]
        | piece :: pieces => String c piece :: pieces
        end
  end.

(** [pieces.join(sep)] *)
Definition join (sep : ascii) (pieces : list string) : string :=
  String.concat (String sep EmptyString) pieces.

(** [s.replace(/\s+/g, repl)]: every maximal run of white space becomes
    one copy of [repl]. [inRun] tells whether the previous character was
    white space. *)
Fixpoint replaceRuns (repl : string) (inRun : bool) (s : string) : string :=
  match s with
  | EmptyString => EmptyString
  | String c r =>
      if isWhiteSpace c
      then if inRun then replaceRuns repl true r
           else (repl ++ replaceRuns repl true r)%string
      else String c (replaceRuns repl false r)
  end.

Definition replaceWhiteSpace (repl s : string) : string :=
  replaceRuns repl false s.

(** [ToBoolean] on an optional string: [undefined] and [''] are falsy. *)
Definition truthyString (s : option string) : bool :=
  match s with
  | Some (String _ _) => true
  | _ => false
  end.

End JSMore.

Import JSMore.

(** ** The uploader ([ImageUploader]) *)

Module ImageUploader.

(** [setImages(prev => [...prev, ...newImages])], the state update of
    [handleFileChange] once the files are read. *)
Definition addImages (newImages prev : list string) : list string :=
  prev ++ newImages.

(** [removeImage]: [setImages(prev => prev.filter((_, i) => i !== index))] *)
Definition removeImage (index : Z) (prev : list string) : list string :=
  filterIndexed (fun _ i => negb (Z.of_nat i =? index)%Z) prev.

(** [img.split(',')[1]] *)
Definition rawImageOf (img : string) : option string :=
  arrayAt (split "," img) 1.

(** [handleAnalyzeClick]: [None] when it returns early, otherwise the
    argument it passes to [onAnalyze]. *)
Definition handleAnalyzeClick (images : list string) (isLoading : bool)
  : option (list (option string)) :=
  if (length images =? 0) || isLoading then None
  else
    let rawImages := map rawImageOf images in
    Some rawImages.

(** A data URL as [FileReader.readAsDataURL] builds it. *)
Definition dataURL (mime payload : string) : string :=
  ("data:" ++ mime ++ ";base64," ++ payload)%string.

Definition free (sep : ascii) (s : string) : Prop :=
  ~ In sep (list_ascii_of_string s).

End ImageUploader.

(** ** The extraction client ([analyzeMarksheet]) *)

Module GeminiService.

(** What is read of the model's response. *)
Record Response : Type := mkResponse { text : option string }.

Definition processingFailed : Error :=
  mkError "Failed to process marksheet. Please ensure the image is clear and try again.".

Section Client.

(** [ai.models.generateContent] on the request built around the image, and
    [JSON.parse] with its unchecked cast to [AnalysisResult], are external:
    each returns or throws. *)
Variable generateContent : string -> Error + Response.
Variable JSON_parse : string -> Error + AnalysisResult.

(** The [try] block. *)
Definition request (base64Image : string) : Error + AnalysisResult :=
  match generateContent base64Image with
  | inl thrown => inl thrown
  | inr response =>
      match text response with
      | Some (String c r) => JSON_parse (String c r)
      | _ => inl (mkError "No response from AI")
      end
  end.

(** What the promise settles to, and what is written to the console on the
    way. *)
Definition analyzeMarksheet (base64Image : string) : Settled * list Event :=
  match request base64Image with
  | inr value => (fulfilled value, [])
  | inl thrown =>
      (rejected processingFailed,
       [ConsoleError "Gemini Analysis Error:" thrown])
  end.

(** The client as [handleAnalyze] sees it. *)
Definition settle (base64Image : string) : Settled :=
  fst (analyzeMarksheet base64Image).

End Client.

End GeminiService.

(** ** What [App] renders *)

Module View.

Definition statusIs (a b : Status) : bool :=
  match a, b with
  | idle, idle | uploading, uploading | processing, processing
  | success, success | error, error => true
  | _, _ => false
  end.

Definition isSome {A : Type} (o : option A) : bool :=
  match o with Some _ => true | None => false end.

Section Rendering.

Variable st : App.State.

Let results := App.results st.
Let activeResultIndex := App.activeResultIndex st.
Let classAverageData := App.classAverageData st.
Let processingState := App.processingState st.

(** [results.length === 0 && processingState.status !== 'processing'] *)
Definition showIntro : bool :=
  (length results =? 0) && negb (statusIs (status processingState) processing).

(** The [isLoading] property handed to the uploader. *)
Definition isLoading : bool := statusIs (status processingState) processing.

Definition showError : bool := statusIs (status processingState) error.

Definition showSuccess : bool :=
  truthyString (statusMessage processingState)
  && statusIs (status processingState) success
  && (0 <? length results).

Definition showResults : bool := 0 <? length results.

Definition showClassCard : bool := showResults && isSome classAverageData.

(** The number on the class-average card. *)
Definition classCardScore : option number :=
  match classAverageData with
  | Some data => Some (calculateAverageScore (Some (subjects data)))
  | None => None
  end.

(** The numbers on the student cards. *)
Definition studentCardScores : list number :=
  map (fun res => calculateAverageScore (Some (subjects res))) results.

(** [activeResultIndex === -1 && classAverageData] *)
Definition averageSelected : bool :=
  (activeResultIndex =? -1)%Z && isSome classAverageData.

(** The title of the detailed report; [None] is [undefined]. *)
Definition reportTitle : option string :=
  if averageSelected then Some "Class Average Overview"
  else
    match arrayAt results activeResultIndex with
    | Some res => Some (studentName res)
    | None => None
    end.

(** The [data] property of the [Dashboard]; [None] is [undefined]. *)
Definition dashboardData : option AnalysisResult :=
  if averageSelected then classAverageData
  else arrayAt results activeResultIndex.

End Rendering.

(** What the user can do. *)
Inductive Action : Type :=
| Analyze (images : list string)
| SelectAverage
| SelectStudent (idx : nat).

(** An action is on offer when its control is rendered and live: the
    uploader submits a batch that is not empty while nothing is loading, the
    class card and the card of student [idx] exist when they are drawn. *)
Definition offered (st : App.State) (a : Action) : bool :=
  match a with
  | Analyze images => negb (length images =? 0) && negb (isLoading st)
  | SelectAverage => showClassCard st
  | SelectStudent idx => showResults st && (idx <? length (App.results st))
  end.

Definition stateAfter {A : Type} (run : (Error + A) * App.State * list Event)
  : App.State :=
  snd (fst run).

Definition perform (client : string -> Settled) (st : App.State) (a : Action)
  : App.State :=
  match a with
  | Analyze images => stateAfter (handleAnalyze client images st [])
  | SelectAverage => stateAfter (setActiveResultIndex (-1)%Z st [])
  | SelectStudent idx => stateAfter (setActiveResultIndex (Z.of_nat idx) st [])
  end.

(** The states a session goes through. *)
Inductive reachable (client : string -> Settled) : App.State -> Prop :=
| reachable_initial : reachable client App.initial
| reachable_step st a :
    reachable client st -> offered st a = true ->
    reachable client (perform client st a).

End View.

(** ** The report ([Dashboard]) *)

Module Dashboard.

Definition COLORS : list string :=
  ["#4F46E5"; "#10B981"; "#EF4444"; "#8B5CF6"; "#EC4899"; "#6366F1"].

(** [averageScore]; the guard [!data.subjects] cannot hold for a record of
    the type. *)
Definition averageScore (data : AnalysisResult) : number :=
  if length (subjects data) =? 0 then ofZ 0
  else
    let total :=
      fold_left (fun sum sub => add sum (score sub)) (subjects data) (ofZ 0) in
    Math_round (div total (ofNat (length (subjects data)))).




(** A bar: a subject entry, or the entry flagged [isAverage]. *)
Record Bar : Type := mkBar {
  bar_subject : string;
  bar_score : number;
  bar_fullMarks : option number;
  isAverage : bool
}.

Definition barOf (sub : SubjectScore) : Bar :=
  mkBar (subject sub) (score sub) (fullMarks sub) false.

Definition barData (data : AnalysisResult) : list Bar :=
  map barOf (subjects data) ++ [ mkBar "Average" (averageScore data) None true ].

(** The [fill] of the cell of [entry] at [index]; [None] is [undefined]. *)
Definition cellFill (entry : Bar) (index : nat) : option string :=
  if isAverage entry then Some "#F59E0B"
  else nth_error COLORS (index mod length COLORS).

Fixpoint mapFrom {A B : Type} (f : A -> nat -> B) (start : nat) (l : list A)
  : list B :=
  match l with
  | [] => []
  | x :: r => f x start :: mapFrom f (S start) r
  end.

Definition cellFills (data : AnalysisResult) : list (option string) :=
  mapFrom cellFill 0 (barData data).

(** The upper end of the Y axis:
    [Math.min(100, Math.max(dataMax * 1.1, 100))]. *)
Definition yAxisMax (dataMax : number) : number :=
  Math_min (ofZ 100) (Math_max (times dataMax (ofQ (11 # 10))) (ofZ 100)).

(** The name of the saved file. *)
Definition fileName (data : AnalysisResult) : string :=
  (replaceWhiteSpace "_" (studentName data) ++ "_Analytics.pdf")%string.

(** *** [handleDownloadPDF] *)

(** The calls made on the jsPDF document, recorded in order. *)
Inductive DocCommand : Type :=
| SetFontSize (size : number)
| SetTextColor (channels : list number)
| Text (lines : list string) (x y : number) (align : option string)
| SetDrawColor (gray : number)
| Line (x1 y1 x2 y2 : number)
| AddPage
| AddImage (imageData format : string) (x y w h : number)
| AutoTable (startY : number) (head : list (list string))
            (body : list (string * number))
| Save (filename : string).

Record Canvas : Type := mkCanvas {
  width : number;
  height : number;
  toDataURL : string
}.

(** What the handler takes from its surroundings. *)
Record Env : Type := mkEnv {
  refAttached : bool;
  pageWidth : number;
  pageHeight : number;
  today : string;
  chartsElement : option (Error + Canvas);
  splitTextToSize : string -> number -> list string
}.


Section Download.

Variable env : Env.
Variable data : AnalysisResult.


(** Step 3, on the captured canvas: the commands and the new [currentY]. *)
Definition placeImage (canvas : Canvas) (currentY : number)
  : list DocCommand * number :=
  let imgData := toDataURL canvas in
  let imgWidth := minus (pageWidth env) (ofZ 40) in
  let imgHeight := div (times (height canvas) imgWidth) (width canvas) in
  let fresh := gtb (add currentY imgHeight) (minus (pageHeight env) (ofZ 20)) in
  let y := if fresh then ofZ 20 else currentY in
  ((if fresh then [AddPage] else [])
     ++ [AddImage imgData "PNG" (ofZ 20) y imgWidth imgHeight],
   add y (add imgHeight (ofZ 10))).

(** Step 4 and the table. *)
Definition summaryCommands (currentY : number) : list DocCommand :=
  let fresh := gtb currentY (minus (pageHeight env) (ofZ 60)) in
  let y := if fresh then ofZ 20 else currentY in
  let y1 := add y (ofZ 10) in
  let splitSummary :=
    splitTextToSize env (summary data) (minus (pageWidth env) (ofZ 40)) in
  let y2 := add y1 (add (times (ofNat (length splitSummary)) (ofZ 5)) (ofZ 10)) in
  let tableData := map (fun s => (subject s, score s)) (subjects data) in
  (if fresh then [AddPage] else [])
    ++ [ SetFontSize (ofZ 14);
         SetTextColor [ofZ 79; ofZ 70; ofZ 229];
         Text ["Analysis Summary"] (ofZ 20) y None;
         SetFontSize (ofZ 10);
         SetTextColor [ofZ 80];
         Text splitSummary (ofZ 20) y1 None;
         AutoTable y2 [["Subject"; "Score"]] tableData;
         Save (fileName data) ].



End Download.

End Dashboard.

(** ** Vocabulary of the further properties *)









(** A page and a canvas for the examples: the A4 page of jsPDF in
    millimetres and a capture twice as wide as it is high. *)
Definition sampleEnv (charts : option (Error + Dashboard.Canvas)) : Dashboard.Env :=
  Dashboard.mkEnv true (ofZ 210) (ofZ 297) "1/2/2026" charts (fun s _ => [s]).

Definition sampleCanvas : Dashboard.Canvas :=
  Dashboard.mkCanvas (ofZ 1700) (ofZ 850) "data:image/png;base64,AAAA".

(** What every state of a session satisfies. *)
Definition selectionValid (st : App.State) : Prop :=
  (App.results st <> [] -> App.classAverageData st <> None) /\
  (App.results st = [] \/
   App.activeResultIndex st = (-1)%Z \/
   (0 <= App.activeResultIndex st < Z.of_nat (length (App.results st)))%Z) /\
  View.isLoading st = false.



(** A response for the examples: the text is the student's name, which the
    parser turns into a record; an image named "blurred" gets no text. *)
Definition sampleGenerate (img : string) : Error + GeminiService.Response :=
  if String.eqb img "blurred" then inr (GeminiService.mkResponse None)
  else inr (GeminiService.mkResponse (Some img)).

Definition sampleParse (text : string) : Error + AnalysisResult :=
  inr (sampleResult text).



(** ** Facts about the built-ins *)

Module JSFacts.

Lemma ofZ_0 : ofZ 0 = Num 0%Qc.
Proof. reflexivity. Qed.

Lemma add_0_l (x : number) : add (ofZ 0) x = x.
Proof.
  destruct x; try reflexivity.
  rewrite ofZ_0. simpl. now rewrite Qcplus_0_l.
Qed.




Lemma add_finite (x y : number) :
  isFinite x = true -> isFinite y = true -> isFinite (add x y) = true.
Proof. destruct x, y; simpl; congruence. Qed.

Lemma Math_max_Num (a b : Qc) : Math_max (Num a) (Num b) = Num (Qcmax a b).
Proof. unfold Qcmax. simpl. now destruct (a ?= b)%Qc. Qed.

Lemma this_Qcmax (a b : Qc) : this (Qcmax a b) = Qmax a b.
Proof.
  unfold Qcmax, Qccompare, Qmax, GenericMinMax.gmax.
  now destruct (Qcompare a b).
Qed.



Lemma Qcmax_id (a : Qc) : Qcmax a a = a.
Proof. apply Qc_is_canon. rewrite this_Qcmax. apply Q.max_id. Qed.



Lemma Math_max_id (x : number) : Math_max x x = x.
Proof.
  destruct x; try reflexivity.
  rewrite Math_max_Num. f_equal. apply Qcmax_id.
Qed.


(** *** Strings *)

Ltac by_ascii_cases c :=
  destruct c as [[] [] [] [] [] [] [] []]; reflexivity.

#[local] Arguments lowerChar : simpl never.
#[local] Arguments upperChar : simpl never.
#[local] Arguments isWhiteSpace : simpl never.

Lemma isWhiteSpace_lowerChar (c : ascii) :
  isWhiteSpace (lowerChar c) = isWhiteSpace c.
Proof. by_ascii_cases c. Qed.

Lemma isWhiteSpace_upperChar (c : ascii) :
  isWhiteSpace (upperChar c) = isWhiteSpace c.
Proof. by_ascii_cases c. Qed.

Lemma lowerChar_idem (c : ascii) : lowerChar (lowerChar c) = lowerChar c.
Proof. by_ascii_cases c. Qed.

Lemma lowerChar_upperChar_lowerChar (c : ascii) :
  lowerChar (upperChar (lowerChar c)) = lowerChar c.
Proof. by_ascii_cases c. Qed.

Lemma toLowerCase_idem (s : string) : toLowerCase (toLowerCase s) = toLowerCase s.
Proof.
  induction s as [|c r IH]; simpl; [reflexivity|].
  now rewrite lowerChar_idem, IH.
Qed.


Lemma trimEnd_toLowerCase (s : string) :
  trimEnd (toLowerCase s) = toLowerCase (trimEnd s).
Proof.
  induction s as [|c r IH]; simpl; [reflexivity|].
  rewrite IH, isWhiteSpace_lowerChar.
  destruct (trimEnd r); simpl; [now destruct (isWhiteSpace c)|reflexivity].
Qed.


Lemma trimEnd_cons (c : ascii) (r : string) :
  isWhiteSpace c = false -> trimEnd (String c r) = String c (trimEnd r).
Proof. intros H. simpl. rewrite H. now destruct (trimEnd r). Qed.

Lemma trimEnd_idem (s : string) : trimEnd (trimEnd s) = trimEnd s.
Proof.
  induction s as [|c r IH]; simpl; [reflexivity|].
  destruct (trimEnd r) as [|c' r'] eqn:E.
  - destruct (isWhiteSpace c) eqn:W; simpl; [reflexivity|now rewrite W].
  - remember (String c' r') as t. simpl. rewrite IH. now subst t.
Qed.

(** What [trimStart] returns is empty or starts with a visible character. *)
Lemma trimStart_head (s : string) :
  trimStart s = EmptyString \/
  exists c r, trimStart s = String c r /\ isWhiteSpace c = false.
Proof.
  induction s as [|c r IH]; simpl; [now left|].
  destruct (isWhiteSpace c) eqn:W; [exact IH|].
  right. now exists c, r.
Qed.


End JSFacts.

Import JSFacts.

(** ** Normalisation keys and display names *)


(** The display name of a key normalises back to the key. *)
Lemma normKeyOf_capitalize (name : string) :
  normKeyOf (capitalize (normKeyOf name)) = normKeyOf name.
Proof.
  unfold normKeyOf at 2 3. unfold trim at 1 2.
  destruct (trimStart_head name) as [E | (c & r & E & W)]; rewrite E.
  - reflexivity.
  - rewrite (trimEnd_cons c r W).
    unfold capitalize, normKeyOf, trim. simpl.
    rewrite isWhiteSpace_upperChar, isWhiteSpace_lowerChar, W.
    assert (W' : isWhiteSpace (upperChar (lowerChar c)) = false)
      by now rewrite isWhiteSpace_upperChar, isWhiteSpace_lowerChar.
    rewrite (trimEnd_cons _ _ W'). simpl.
    rewrite lowerChar_upperChar_lowerChar.
    now rewrite trimEnd_toLowerCase, trimEnd_idem, toLowerCase_idem.
Qed.

(** ** The subject map *)

Lemma hasKey_In (key : string) (keys : list string) :
  hasKey key keys = true <-> In key keys.
Proof.
  unfold hasKey. rewrite existsb_exists. split.
  - intros (k & Hin & E). apply String.eqb_eq in E. now subst.
  - intros H. exists key. split; [exact H|apply String.eqb_refl].
Qed.

Lemma Map_get_set (key key' : string) (val : Acc) (m : SubjectMap) :
  Map_get key (Map_set key' val m) =
  if String.eqb key' key then Some val else Map_get key m.
Proof.
  induction m as [|[k v] r IH]; simpl.
  - reflexivity.
  - destruct (String.eqb k key') eqn:E; simpl.
    + apply String.eqb_eq in E. subst k.
      now destruct (String.eqb key' key).
    + rewrite IH. destruct (String.eqb k key) eqn:E'; [|reflexivity].
      apply String.eqb_eq in E'. subst k.
      now rewrite String.eqb_sym, E.
Qed.

Lemma keysOf_Map_set (key : string) (val : Acc) (m : SubjectMap) :
  keysOf (Map_set key val m) =
  if hasKey key (keysOf m) then keysOf m else keysOf m ++ [key].
Proof.
  unfold keysOf, hasKey. induction m as [|[k v] r IH]; simpl.
  - reflexivity.
  - rewrite (String.eqb_sym key k).
    destruct (String.eqb k key); simpl; [reflexivity|].
    rewrite IH. now destruct (existsb _ _).
Qed.


Lemma Map_get_In (key : string) (val : Acc) (m : SubjectMap) :
  NoDup (keysOf m) -> (Map_get key m = Some val <-> In (key, val) m).
Proof.
  unfold keysOf. induction m as [|[k v] r IH]; simpl; intros ND.
  - split; [discriminate|tauto].
  - inversion ND as [|? ? Hnot ND']; subst.
    destruct (String.eqb k key) eqn:E.
    + apply String.eqb_eq in E. subst k. split.
      * intros [= ->]. now left.
      * intros [[= ->] | Hin]; [reflexivity|].
        exfalso. apply Hnot. now apply (in_map fst) in Hin.
    + apply String.eqb_neq in E. rewrite (IH ND'). split.
      * tauto.
      * intros [[= -> ->] | Hin]; [congruence|exact Hin].
Qed.


(** *** What the two loops compute *)

Lemma keysOf_addSubject (m : SubjectMap) (sub : SubjectScore) :
  keysOf (addSubject m sub) = seeKey (keysOf m) (normKeyOf (subject sub)).
Proof. unfold addSubject. cbv zeta. apply keysOf_Map_set. Qed.

Lemma keysOf_fold (subs : list SubjectScore) (m : SubjectMap) :
  keysOf (fold_left addSubject subs m) =
  fold_left seeKey (map (fun sub => normKeyOf (subject sub)) subs) (keysOf m).
Proof.
  revert m. induction subs as [|sub r IH]; intros m; simpl.
  - reflexivity.
  - now rewrite IH, keysOf_addSubject.
Qed.

Lemma seeKey_fold_In (keys seen : list string) (key : string) :
  In key (fold_left seeKey keys seen) <-> In key seen \/ In key keys.
Proof.
  revert seen. induction keys as [|k r IH]; intros seen; simpl.
  - tauto.
  - rewrite IH. unfold seeKey.
    destruct (hasKey k seen) eqn:E.
    + apply hasKey_In in E. split; [tauto|].
      intros [H | [-> | H]]; tauto.
    + rewrite in_app_iff. simpl. tauto.
Qed.

Lemma seeKey_fold_NoDup (keys seen : list string) :
  NoDup seen -> NoDup (fold_left seeKey keys seen).
Proof.
  revert seen. induction keys as [|k r IH]; intros seen ND; simpl.
  - exact ND.
  - apply IH. unfold seeKey.
    destruct (hasKey k seen) eqn:E; [exact ND|].
    assert (Hnot : ~ In k seen).
    { intros Hin. apply hasKey_In in Hin. congruence. }
    apply NoDup_rev in ND. rewrite <- (rev_involutive (seen ++ [k])).
    apply NoDup_rev. rewrite rev_app_distr. simpl.
    constructor; [now rewrite <- in_rev|exact ND].
Qed.

Lemma firstSeen_In (keys : list string) (key : string) :
  In key (firstSeen keys) <-> In key keys.
Proof. unfold firstSeen. rewrite seeKey_fold_In. simpl. tauto. Qed.

Lemma firstSeen_NoDup (keys : list string) : NoDup (firstSeen keys).
Proof. apply seeKey_fold_NoDup. constructor. Qed.

Lemma contributors_app (key : string) (l l' : list SubjectScore) :
  contributors key (l ++ l') = contributors key l ++ contributors key l'.
Proof. apply filter_app. Qed.

Lemma Map_get_fold (subs : list SubjectScore) (key : string) :
  Map_get key (fold_left addSubject subs []) = accOf (contributors key subs).
Proof.
  induction subs as [|sub l IH] using rev_ind.
  - reflexivity.
  - rewrite fold_left_app, contributors_app. simpl fold_left.
    unfold addSubject at 1. cbv zeta. rewrite Map_get_set.
    unfold contributors at 2. simpl filter.
    destruct (String.eqb (normKeyOf (subject sub)) key) eqn:E.
    + apply String.eqb_eq in E. rewrite E, IH.
      destruct (contributors key l) as [|c r]; simpl.
      * now rewrite Math_max_id.
      * rewrite !map_app, !fold_left_app, length_app. reflexivity.
    + now rewrite app_nil_r.
Qed.

Lemma addResult_fold (results : list AnalysisResult) (st : Sums) :
  fold_left addResult results st =
  mkSums (fold_left add (map totalObtained results) (totalObtainedSum st))
         (fold_left add (map totalPossible results) (totalPossibleSum st))
         (fold_left addSubject (allSubjects results) (subjectMap st)).
Proof.
  revert st. induction results as [|res r IH]; intros st; simpl.
  - now destruct st.
  - rewrite IH. simpl. now rewrite fold_left_app.
Qed.

Lemma accumulate_eq (results : list AnalysisResult) :
  accumulate results =
  mkSums (fold_left add (map totalObtained results) (ofZ 0))
         (fold_left add (map totalPossible results) (ofZ 0))
         (fold_left addSubject (allSubjects results) []).
Proof. unfold accumulate. now rewrite addResult_fold. Qed.

Lemma subjectMap_keys (results : list AnalysisResult) :
  keysOf (subjectMap (accumulate results)) =
  firstSeen (map (fun sub => normKeyOf (subject sub)) (allSubjects results)).
Proof. rewrite accumulate_eq. simpl. now rewrite keysOf_fold. Qed.

Lemma subjectMap_get (results : list AnalysisResult) (key : string) :
  Map_get key (subjectMap (accumulate results)) =
  accOf (contributors key (allSubjects results)).
Proof. rewrite accumulate_eq. simpl. apply Map_get_fold. Qed.

(** ** The aggregate record *)

Lemma calculateClassAverage_nonempty (results : list AnalysisResult) :
  results <> [] -> calculateClassAverage results = inr (classAverageOf results).
Proof.
  intros H. unfold calculateClassAverage.
  destruct results; [contradiction|reflexivity].
Qed.

Lemma calculateClassAverage_empty :
  calculateClassAverage [] = inl (mkError "No results to average").
Proof. reflexivity. Qed.



(** ** Order on numbers *)

Lemma leb_Num (a b : Qc) : leb (Num a) (Num b) = true <-> (a <= b)%Qc.
Proof.
  simpl. rewrite Qcle_alt.
  destruct (a ?= b)%Qc; split; congruence.
Qed.

Lemma ltb_Num (a b : Qc) : ltb (Num a) (Num b) = true <-> (a < b)%Qc.
Proof.
  simpl. rewrite Qclt_alt.
  destruct (a ?= b)%Qc; split; congruence.
Qed.










(** ** Averaged entries *)

Lemma subjectMap_NoDup (results : list AnalysisResult) :
  NoDup (keysOf (subjectMap (accumulate results))).
Proof. rewrite subjectMap_keys. apply firstSeen_NoDup. Qed.

Lemma subjectMap_key_normal (results : list AnalysisResult) (key : string) :
  In key (keysOf (subjectMap (accumulate results))) ->
  normKeyOf (capitalize key) = key.
Proof.
  rewrite subjectMap_keys, firstSeen_In, in_map_iff.
  intros (sub & <- & _). apply normKeyOf_capitalize.
Qed.

(** Every averaged entry is the summary of a non-empty group of
    contributors: the entries of the input that share its key. *)
Lemma avg_entry_inv (results : list AnalysisResult) (entry : SubjectScore) :
  In entry (subjects (classAverageOf results)) ->
  exists c r,
    contributors (normKeyOf (subject entry)) (allSubjects results) = c :: r /\
    subject entry = capitalize (normKeyOf (subject c)) /\
    score entry =
      Math_round (div (fold_left add (map score (c :: r)) (ofZ 0))
                      (ofNat (length (c :: r)))) /\
    fullMarks entry =
      Some (fold_left Math_max (map fullMarksOr100 r) (fullMarksOr100 c)).
Proof.
  simpl. unfold avgSubjectsOf. rewrite in_map_iff.
  intros ([k acc] & <- & Hin). simpl.
  assert (Hk : In k (keysOf (subjectMap (accumulate results))))
    by now apply (in_map fst) in Hin.
  rewrite (subjectMap_key_normal results k Hk).
  apply Map_get_In in Hin; [|apply subjectMap_NoDup].
  rewrite subjectMap_get in Hin.
  destruct (contributors k (allSubjects results)) as [|c r] eqn:E;
    [discriminate|].
  injection Hin as <-. exists c, r. simpl.
  assert (Hc : In c (contributors k (allSubjects results)))
    by (rewrite E; now left).
  apply filter_In in Hc. destruct Hc as [_ Hc].
  apply String.eqb_eq in Hc. rewrite Hc. repeat split.
Qed.

(** ** The batch orchestrator *)

Lemma successes_failures_length (outcomes : list Settled) :
  length (successesOf outcomes) + length (failuresOf outcomes) = length outcomes.
Proof.
  induction outcomes as [|[v|e] r IH]; simpl; lia.
Qed.

Lemma forEachM_collect (outcomes : list Settled)
    (acc : list AnalysisResult) (n : nat) (st : App.State) (tr : list Event) :
  forEachM collect outcomes (acc, n) st tr =
  (inr (acc ++ successesOf outcomes, n + length (failuresOf outcomes)),
   st, tr ++ failureLines outcomes).
Proof.
  revert acc n tr. induction outcomes as [|[v|e] r IH]; intros acc n tr.
  - simpl. unfold ret, failureLines. simpl.
    now rewrite !app_nil_r, Nat.add_0_r.
  - cbn [forEachM collect]. unfold bind at 1. unfold ret at 1.
    rewrite IH. cbn [fst snd]. unfold failureLines. simpl.
    now rewrite <- app_assoc.
  - cbn [forEachM collect]. unfold bind at 1 2. unfold emit, ret at 1.
    rewrite IH. cbn [fst snd]. unfold failureLines. simpl.
    rewrite <- app_assoc. simpl.
    now replace (n + 1 + length (failuresOf r))
      with (n + S (length (failuresOf r))) by lia.
Qed.

(** The whole run in closed form. *)
Lemma handleAnalyze_run (analyzeMarksheet : string -> Settled)
    (images : list string) (st : App.State) (tr : list Event) :
  let outcomes := map analyzeMarksheet images in
  let successes := successesOf outcomes in
  handleAnalyze analyzeMarksheet images st tr =
  match successes with
  | [] =>
      (inr tt,
       App.mkState [] (App.activeResultIndex st) None batchFailed,
       tr ++ failureLines outcomes)
  | _ :: _ =>
      (inr tt,
       App.mkState successes (-1)%Z (Some (classAverageOf successes))
         (batchSucceeded (length successes) (length (failuresOf outcomes))),
       tr ++ failureLines outcomes ++ [CallClassAverage successes])
  end.
Proof.
  intros outcomes successes. unfold handleAnalyze.
  unfold bind at 1 2 3.
  unfold setProcessingState at 1, setResults at 1, setClassAverageData at 1.
  cbn [App.results App.activeResultIndex App.classAverageData
       App.processingState].
  unfold tryCatch. unfold bind at 1.
  fold outcomes. rewrite forEachM_collect. cbn [fst snd app].
  fold successes. rewrite Nat.add_0_l.
  destruct successes as [|v r] eqn:E.
  - reflexivity.
  - cbn [length Nat.ltb Nat.leb].
    unfold bind, setResults, emit, liftThrowing, setClassAverageData,
      setActiveResultIndex, setProcessingState.
    rewrite calculateClassAverage_nonempty by discriminate.
    cbn [App.results App.activeResultIndex App.classAverageData
         App.processingState].
    now rewrite <- app_assoc.
Qed.

Lemma successesOf_filter (outcomes : list Settled) :
  map fulfilled (successesOf outcomes) = filter isFulfilled outcomes.
Proof.
  induction outcomes as [|[v|e] r IH]; simpl; [reflexivity| |exact IH].
  now rewrite IH.
Qed.

Lemma failuresOf_filter (outcomes : list Settled) :
  map rejected (failuresOf outcomes) = filter isRejected outcomes.
Proof.
  induction outcomes as [|[v|e] r IH]; simpl; [reflexivity|exact IH|].
  now rewrite IH.
Qed.

Lemma filter_isCall_failureLines (outcomes : list Settled) :
  filter isCall (failureLines outcomes) = [].
Proof.
  unfold failureLines. induction (failuresOf outcomes); simpl; auto.
Qed.

(** ** Rounding *)





(** ** Sums and means of finite numbers *)








(** ** The average-score helper *)


(** ** Dependence on the input fields *)




(** ** Permutations of the input *)

Section FoldPermutation.

Context {A B : Type} (f : A -> B -> A).
Hypothesis f_right_comm : forall a x y, f (f a x) y = f (f a y) x.


End FoldPermutation.









(** ** Finite numbers *)









(** The display order does follow the input: swapping two students whose
    lists start with different subjects swaps the averaged entries. *)
Example display_order_follows_input :
  let one := mkAnalysisResult "Asha" scenarioSubjects1
               (ofZ 170) (ofZ 200) (ofZ 85) "A" "" [] in
  let two := mkAnalysisResult "Bilal" (rev scenarioSubjects2)
               (ofZ 130) (ofZ 200) (ofZ 65) "B" "" [] in
  map subject (subjects (classAverageOf [one; two])) = ["Math"; "Science"] /\
  map subject (subjects (classAverageOf [two; one])) = ["Science"; "Math"].
Proof. split; reflexivity. Qed.

(** ** The properties *)






(** C3. For a batch of one or more images, a run of [handleAnalyze] never
    raises and writes one line per failed call. If at least one call
    succeeds it ends in the success state holding the successful results in
    input order, their class average, and a failure count (shown in the
    message) equal to the number of failed calls. If every call fails it
    ends in the fixed batch-level error state, whatever the reasons of the
    failures, with no result, no class average, and no call of
    [calculateClassAverage]. *)
Theorem C3_batch_outcome (analyzeMarksheet : string -> Settled)
    (images : list string) (st : App.State) :
  images <> [] ->
  let outcomes := map analyzeMarksheet images in
  let failed := length (filter isRejected outcomes) in
  exists st' tr,
    handleAnalyze analyzeMarksheet images st [] = (inr tt, st', tr) /\
    filter (fun ev => negb (isCall ev)) tr =
      map (ConsoleError "Analysis failed for one document:")
          (failuresOf outcomes) /\
    map rejected (failuresOf outcomes) = filter isRejected outcomes /\
    (Exists (fun o => isFulfilled o = true) outcomes ->
       map fulfilled (App.results st') = filter isFulfilled outcomes /\
       length (App.results st') + failed = length images /\
       App.processingState st' =
         batchSucceeded (length (App.results st')) failed /\
       status (App.processingState st') = success /\
       (exists avg,
          calculateClassAverage (App.results st') = inr avg /\
          App.classAverageData st' = Some avg) /\
       App.activeResultIndex st' = (-1)%Z /\
       filter isCall tr = [CallClassAverage (App.results st')]) /\
    (Forall (fun o => isRejected o = true) outcomes ->
       App.processingState st' = batchFailed /\
       status (App.processingState st') = error /\
       failed = length images /\
       App.results st' = [] /\
       App.classAverageData st' = None /\
       filter isCall tr = []).
Proof.
  intros Hne outcomes failed.
  pose proof (handleAnalyze_run analyzeMarksheet images st []) as Hrun.
  cbv zeta in Hrun. fold outcomes in Hrun.
  pose proof (successesOf_filter outcomes) as Hs.
  pose proof (failuresOf_filter outcomes) as Hf.
  pose proof (successes_failures_length outcomes) as Hlen.
  assert (Hfailed : length (failuresOf outcomes) = failed).
  { unfold failed. rewrite <- Hf. now rewrite length_map. }
  assert (Hout : length outcomes = length images)
    by (unfold outcomes; apply length_map).
  assert (Hlines : forall l,
             filter (fun ev => negb (isCall ev)) (failureLines l) =
             failureLines l).
  { intros l. unfold failureLines.
    induction (failuresOf l); simpl; [reflexivity|now f_equal]. }
  destruct (successesOf outcomes) as [|v r] eqn:E.
  - eexists _, _. split; [exact Hrun|]. simpl.
    split; [apply Hlines|]. split; [exact Hf|]. split.
    + intros Hex. exfalso. apply Exists_exists in Hex.
      destruct Hex as (o & Hin & Ho).
      assert (Hin' : In o (filter isFulfilled outcomes))
        by (apply filter_In; now split).
      now rewrite <- Hs in Hin'.
    + intros _. simpl in Hlen.
      repeat split; try reflexivity; [lia|].
      apply filter_isCall_failureLines.
  - eexists _, _. split; [exact Hrun|]. simpl.
    rewrite !filter_app, Hlines, filter_isCall_failureLines. simpl.
    split; [now rewrite app_nil_r|]. split; [exact Hf|]. split.
    + intros _. rewrite Hfailed.
      split; [exact Hs|]. split; [simpl in Hlen |- *; lia|].
      split; [reflexivity|]. split; [reflexivity|].
      split; [|split; reflexivity].
      exists (classAverageOf (v :: r)). split; [|reflexivity].
      now apply calculateClassAverage_nonempty.
    + intros Hall. exfalso.
      assert (Hin : In (fulfilled v) (filter isFulfilled outcomes))
        by (rewrite <- Hs; now left).
      apply filter_In in Hin. destruct Hin as [Hin _].
      rewrite Forall_forall in Hall. now apply Hall in Hin.
Qed.

Lemma C3_witness :
  exists st' tr,
    handleAnalyze sampleClient ["first"; "blurred"; "third"] App.initial [] =
      (inr tt, st', tr) /\
    length (App.results st') + 1 = 3 /\
    App.processingState st' = batchSucceeded (length (App.results st')) 1 /\
    status (App.processingState st') = success.
Proof.
  destruct (C3_batch_outcome sampleClient ["first"; "blurred"; "third"]
              App.initial ltac:(discriminate))
    as (st' & tr & Hrun & _ & _ & Hok & _).
  exists st', tr. split; [exact Hrun|].
  destruct Hok as (_ & Hlen & Hstate & Hstatus & _).
  - apply Exists_cons_hd. reflexivity.
  - repeat split; assumption.
Defined.

(** C4. Two students, the first with Math 80/100 and Science 90/100, the
    second with math 60 (no [fullMarks]) and Science 70/100, whatever their
    other fields: the aggregate has exactly the two entries Math 70/100 and
    Science 80/100, and its percentage is 75. *)
Theorem C4_scenario (one two : AnalysisResult) :
  subjects one = scenarioSubjects1 ->
  subjects two = scenarioSubjects2 ->
  exists avg,
    calculateClassAverage [one; two] = inr avg /\
    subjects avg =
      [ mkSubjectScore "Math" (ofZ 70) (Some (ofZ 100));
        mkSubjectScore "Science" (ofZ 80) (Some (ofZ 100)) ] /\
    percentage avg = ofZ 75.
Proof.
  intros H1 H2. exists (classAverageOf [one; two]).
  split; [reflexivity|].
  assert (Hs : subjects (classAverageOf [one; two]) =
               [ mkSubjectScore "Math" (ofZ 70) (Some (ofZ 100));
                 mkSubjectScore "Science" (ofZ 80) (Some (ofZ 100)) ]).
  { cbn [classAverageOf subjects]. rewrite accumulate_eq.
    cbn [subjectMap allSubjects flat_map]. rewrite H1, H2.
    vm_compute. reflexivity. }
  split; [exact Hs|].
  change (percentage (classAverageOf [one; two]))
    with (calculateAverageScore (Some (subjects (classAverageOf [one; two])))).
  rewrite Hs. vm_compute. reflexivity.
Qed.

Lemma C4_witness :
  exists avg,
    calculateClassAverage
      [ mkAnalysisResult "Asha" scenarioSubjects1
          (ofZ 170) (ofZ 200) (ofZ 85) "A" "" [];
        mkAnalysisResult "Bilal" scenarioSubjects2
          (ofZ 130) (ofZ 200) (ofZ 65) "B" "" [] ] = inr avg /\
    subjects avg =
      [ mkSubjectScore "Math" (ofZ 70) (Some (ofZ 100));
        mkSubjectScore "Science" (ofZ 80) (Some (ofZ 100)) ] /\
    percentage avg = ofZ 75.
Proof.
  apply C4_scenario; reflexivity.
Defined.





(** C7. On the empty list [calculateClassAverage] throws ("No results to
    average") and returns no record. On every non-empty list it returns a
    record with every field filled in, and every averaged entry carries a
    [fullMarks]. [handleAnalyze] calls it on non-empty lists only, so every
    call it makes returns and the orchestrator itself never throws. *)
Theorem C7_empty_input_contract :
  calculateClassAverage [] = inl (mkError "No results to average") /\
  (forall results, results <> [] ->
     exists avg,
       calculateClassAverage results = inr avg /\
       studentName avg = "Class Average" /\
       grade avg = "" /\
       summary avg =
         ("This represents the aggregated performance of "
            ++ natToString (length results)
            ++ " students. The class average score is "
            ++ numberToString (percentage avg) ++ ".")%string /\
       feedback avg = classFeedback /\
       length (feedback avg) = 3 /\
       Forall (fun entry => fullMarks entry <> None) (subjects avg)) /\
  (forall analyzeMarksheet images st tr0,
     exists st' tr,
       handleAnalyze analyzeMarksheet images st tr0 = (inr tt, st', tr) /\
       forall arg, In (CallClassAverage arg) tr ->
         In (CallClassAverage arg) tr0 \/
         (arg <> [] /\ exists avg, calculateClassAverage arg = inr avg)).
Proof.
  split; [reflexivity|]. split.
  - intros results Hne. exists (classAverageOf results).
    split; [now apply calculateClassAverage_nonempty|].
    repeat (split; [reflexivity|]).
    apply Forall_forall. intros entry Hin.
    destruct (avg_entry_inv results entry Hin) as (c & r & _ & _ & _ & ->).
    discriminate.
  - intros analyzeMarksheet images st tr0.
    pose proof (handleAnalyze_run analyzeMarksheet images st tr0) as Hrun.
    cbv zeta in Hrun.
    destruct (successesOf (map analyzeMarksheet images)) as [|v r] eqn:E;
      eexists _, _; (split; [exact Hrun|]); intros arg Hin;
      rewrite ?in_app_iff in Hin.
    + destruct Hin as [Hin | Hin]; [now left|].
      unfold failureLines in Hin. apply in_map_iff in Hin.
      now destruct Hin as (e & He & _).
    + destruct Hin as [Hin | [Hin | Hin]]; [now left| |].
      * unfold failureLines in Hin. apply in_map_iff in Hin.
        now destruct Hin as (e & He & _).
      * destruct Hin as [[= <-] | []]. right.
        split; [discriminate|].
        exists (classAverageOf (v :: r)).
        now apply calculateClassAverage_nonempty.
Qed.

Lemma C7_witness :
  exists avg,
    calculateClassAverage [sampleResult "first"] = inr avg /\
    studentName avg = "Class Average".
Proof.
  destruct C7_empty_input_contract as (_ & H & _).
  destruct (H [sampleResult "first"]) as (avg & Havg & Hname & _).
  - discriminate.
  - exists avg. split; assumption.
Defined.







(** ** Further facts about the built-ins *)

Lemma split_nonempty (sep : ascii) (s : string) : split sep s <> [].
Proof.
  induction s as [|c r IH]; simpl; [discriminate|].
  destruct (Ascii.eqb c sep); [discriminate|].
  destruct (split sep r); discriminate.
Qed.

Lemma join_cons (sep : ascii) (piece : string) (pieces : list string) :
  pieces <> [] ->
  join sep (piece :: pieces) = (piece ++ String sep (join sep pieces))%string.
Proof.
  intros H. unfold join. destruct pieces as [|p ps]; [contradiction|].
  reflexivity.
Qed.

Lemma join_cons_char (sep c : ascii) (piece : string) (pieces : list string) :
  join sep (String c piece :: pieces) = String c (join sep (piece :: pieces)).
Proof. unfold join. now destruct pieces. Qed.

(** Joining the pieces of a split gives the string back. *)
Lemma join_split (sep : ascii) (s : string) : join sep (split sep s) = s.
Proof.
  induction s as [|c r IH]; [reflexivity|]. simpl.
  destruct (Ascii.eqb c sep) eqn:E.
  - apply Ascii.eqb_eq in E. subst c.
    rewrite join_cons by apply split_nonempty. simpl. now rewrite IH.
  - pose proof (split_nonempty sep r) as Hne.
    destruct (split sep r) as [|piece pieces]; [contradiction|].
    rewrite join_cons_char. now rewrite IH.
Qed.

Lemma split_free (sep : ascii) (s : string) :
  Forall (ImageUploader.free sep) (split sep s).
Proof.
  unfold ImageUploader.free.
  induction s as [|c r IH]; simpl.
  - constructor; [|constructor]. simpl. tauto.
  - destruct (Ascii.eqb c sep) eqn:E.
    + constructor; [simpl; tauto|exact IH].
    + apply Ascii.eqb_neq in E.
      destruct (split sep r) as [|piece pieces].
      * constructor; [|constructor]. simpl. intros [H | []]. congruence.
      * inversion IH as [|? ? Hp Hps]; subst.
        constructor; [|exact Hps]. simpl. intros [H | H]; [congruence|tauto].
Qed.

Lemma split_free_string (sep : ascii) (s : string) :
  ImageUploader.free sep s -> split sep s = [s].
Proof.
  unfold ImageUploader.free.
  induction s as [|c r IH]; simpl; intros H; [reflexivity|].
  destruct (Ascii.eqb c sep) eqn:E.
  - apply Ascii.eqb_eq in E. tauto.
  - rewrite IH by tauto. reflexivity.
Qed.

Lemma split_append (sep : ascii) (s rest : string) :
  ImageUploader.free sep s ->
  split sep (s ++ String sep rest) = s :: split sep rest.
Proof.
  unfold ImageUploader.free.
  induction s as [|c r IH]; simpl; intros H.
  - now rewrite Ascii.eqb_refl.
  - destruct (Ascii.eqb c sep) eqn:E.
    + apply Ascii.eqb_eq in E. tauto.
    + rewrite IH by tauto. reflexivity.
Qed.

(** Splitting a join of separator-free pieces gives the pieces back. *)
Lemma split_join (sep : ascii) (pieces : list string) :
  pieces <> [] -> Forall (ImageUploader.free sep) pieces ->
  split sep (join sep pieces) = pieces.
Proof.
  induction pieces as [|p ps IH]; intros Hne Hfree; [contradiction|].
  inversion Hfree as [|? ? Hp Hps]; subst.
  destruct ps as [|q qs].
  - now apply split_free_string.
  - rewrite join_cons by discriminate.
    rewrite split_append by exact Hp.
    now rewrite IH.
Qed.

Lemma string_app_assoc (a b c : string) :
  ((a ++ b) ++ c)%string = (a ++ (b ++ c))%string.
Proof. induction a as [|x r IH]; simpl; [reflexivity|now rewrite IH]. Qed.

Lemma free_app (sep : ascii) (a b : string) :
  ImageUploader.free sep a -> ImageUploader.free sep b ->
  ImageUploader.free sep (a ++ b).
Proof.
  unfold ImageUploader.free. induction a as [|x r IH]; simpl; [tauto|].
  intros Ha Hb [H | H]; [tauto|]. apply IH; tauto.
Qed.

Lemma free_literal (sep : ascii) (s : string) :
  forallb (fun c => negb (Ascii.eqb c sep)) (list_ascii_of_string s) = true ->
  ImageUploader.free sep s.
Proof.
  unfold ImageUploader.free. rewrite forallb_forall. intros H Hin.
  apply H in Hin. now rewrite Ascii.eqb_refl in Hin.
Qed.

(** *** Filtering by index *)

Lemma filterFrom_outside {A} (index : Z) (start : nat) (l : list A) :
  (index < Z.of_nat start \/ Z.of_nat (start + length l) <= index)%Z ->
  filterFrom (fun _ i => negb (Z.of_nat i =? index)%Z) start l = l.
Proof.
  revert start. induction l as [|x r IH]; intros start H; simpl.
  - reflexivity.
  - simpl in H.
    replace (Z.of_nat start =? index)%Z with false
      by (symmetry; apply Z.eqb_neq; lia).
    simpl. f_equal. apply IH. simpl. lia.
Qed.

Lemma filterFrom_inside {A} (k start : nat) (l : list A) :
  k < length l ->
  filterFrom (fun _ i => negb (Z.of_nat i =? Z.of_nat (start + k))%Z) start l =
  firstn k l ++ skipn (S k) l.
Proof.
  revert start k. induction l as [|x r IH]; intros start k H; simpl in H.
  - lia.
  - destruct k as [|k]; cbn [filterFrom firstn skipn app].
    + rewrite Nat.add_0_r, Z.eqb_refl. simpl.
      apply filterFrom_outside. lia.
    + replace (Z.of_nat start =? Z.of_nat (start + S k))%Z with false
        by (symmetry; apply Z.eqb_neq; lia).
      simpl. f_equal.
      replace (start + S k) with (S start + k) by lia.
      apply IH. lia.
Qed.

Lemma removeImage_at (index : nat) (prev : list string) :
  index < length prev ->
  ImageUploader.removeImage (Z.of_nat index) prev =
  firstn index prev ++ skipn (S index) prev.
Proof.
  intros H. unfold ImageUploader.removeImage, filterIndexed.
  apply (filterFrom_inside index 0 prev H).
Qed.

(** ** Further properties: the uploader *)

(** X1. Removing the image at a position of the list drops that image
    and nothing else: the images before it and after it stay, in order, and
    the list is one shorter. *)
Theorem X1_removeImage_in_range (index : nat) (prev : list string) :
  index < length prev ->
  ImageUploader.removeImage (Z.of_nat index) prev =
    firstn index prev ++ skipn (S index) prev /\
  length (ImageUploader.removeImage (Z.of_nat index) prev) = length prev - 1 /\
  (forall j, j < index ->
     nth_error (ImageUploader.removeImage (Z.of_nat index) prev) j =
     nth_error prev j) /\
  (forall j, index <= j ->
     nth_error (ImageUploader.removeImage (Z.of_nat index) prev) j =
     nth_error prev (S j)).
Proof.
  intros H. rewrite (removeImage_at index prev H).
  split; [reflexivity|].
  assert (Hlen : length (firstn index prev) = index)
    by (rewrite length_firstn; lia).
  split; [|split].
  - rewrite length_app, Hlen, length_skipn. lia.
  - intros j Hj. rewrite nth_error_app1 by lia.
    rewrite nth_error_firstn.
    now replace (j <? index) with true by (symmetry; apply Nat.ltb_lt; lia).
  - intros j Hj. rewrite nth_error_app2 by lia.
    rewrite Hlen, nth_error_skipn. f_equal. lia.
Qed.

Lemma X1_witness :
  ImageUploader.removeImage 1 ["a"; "b"; "c"] = ["a"; "c"].
Proof.
  destruct (X1_removeImage_in_range 1 ["a"; "b"; "c"]) as [E _].
  - simpl. lia.
  - exact E.
Defined.

(** X2. Removing at a position off the list, negative or past the end,
    leaves the list as it is. *)
Theorem X2_removeImage_out_of_range (index : Z) (prev : list string) :
  (index < 0 \/ Z.of_nat (length prev) <= index)%Z ->
  ImageUploader.removeImage index prev = prev.
Proof.
  intros H. unfold ImageUploader.removeImage, filterIndexed.
  apply filterFrom_outside. simpl. lia.
Qed.

Lemma X2_witness :
  ImageUploader.removeImage 3 ["a"; "b"; "c"] = ["a"; "b"; "c"].
Proof. apply X2_removeImage_out_of_range. simpl. lia. Defined.

(** X3. Adding images and then removing the first of the added ones, the
    one at the old length, leaves the old list followed by the other added
    images; adding one image and removing it gives back the old list. *)
Theorem X3_add_then_remove (img : string) (more prev : list string) :
  ImageUploader.removeImage (Z.of_nat (length prev))
    (ImageUploader.addImages (img :: more) prev) =
  ImageUploader.addImages more prev /\
  ImageUploader.removeImage (Z.of_nat (length prev))
    (ImageUploader.addImages [img] prev) = prev.
Proof.
  assert (H : forall l,
             ImageUploader.removeImage (Z.of_nat (length prev))
               (ImageUploader.addImages (img :: l) prev) =
             ImageUploader.addImages l prev).
  { intros l. unfold ImageUploader.addImages.
    rewrite removeImage_at by (rewrite length_app; simpl; lia).
    clear. induction prev as [|x r IH]; simpl; [reflexivity|].
    f_equal. exact IH. }
  split; [apply H|].
  rewrite H. unfold ImageUploader.addImages. apply app_nil_r.
Qed.

(** X4. The payload of a data URL survives the trip: for a MIME type and
    a payload without commas, [split(',')[1]] of the data URL is the
    payload. An image string without a comma gives [undefined]. *)
Theorem X4_rawImageOf_dataURL :
  (forall mime payload,
     ImageUploader.free "," mime -> ImageUploader.free "," payload ->
     ImageUploader.rawImageOf (ImageUploader.dataURL mime payload) =
     Some payload) /\
  (forall img, ImageUploader.free "," img ->
     ImageUploader.rawImageOf img = None).
Proof.
  split.
  - intros mime payload Hm Hp.
    unfold ImageUploader.rawImageOf, ImageUploader.dataURL.
    change (";base64," ++ payload)%string
      with (";base64" ++ String "," payload)%string.
    rewrite <- !string_app_assoc.
    rewrite split_append, (split_free_string _ _ Hp); [reflexivity|].
    repeat apply free_app; try exact Hm; now apply free_literal.
  - intros img H. unfold ImageUploader.rawImageOf.
    now rewrite (split_free_string _ _ H).
Qed.

Lemma X4_witness :
  ImageUploader.rawImageOf
    (ImageUploader.dataURL "image/png" "iVBORw0KGgo=") = Some "iVBORw0KGgo=".
Proof.
  destruct X4_rawImageOf_dataURL as [H _].
  apply H; now apply free_literal.
Defined.

(** X5. [handleAnalyzeClick] hands a batch to [onAnalyze] exactly when
    there is at least one image and nothing is loading; the batch is then
    never empty and has one entry per image, in order. For images read as
    data URLs the entries are their payloads. *)
Theorem X5_handleAnalyzeClick (images : list string) (isLoading : bool) :
  (ImageUploader.handleAnalyzeClick images isLoading <> None <->
     images <> [] /\ isLoading = false) /\
  (forall raw, ImageUploader.handleAnalyzeClick images isLoading = Some raw ->
     raw <> [] /\ length raw = length images /\
     raw = map ImageUploader.rawImageOf images) /\
  (forall files : list (string * string),
     files <> [] ->
     Forall (fun f => ImageUploader.free "," (fst f) /\
                      ImageUploader.free "," (snd f)) files ->
     ImageUploader.handleAnalyzeClick
       (map (fun f => ImageUploader.dataURL (fst f) (snd f)) files) false =
     Some (map (fun f => Some (snd f)) files)).
Proof.
  unfold ImageUploader.handleAnalyzeClick.
  split; [|split].
  - destruct images as [|img r], isLoading; simpl; split;
      try (intros H; now contradiction H);
      try (intros [H1 H2]; congruence);
      try (intros _; split; [discriminate|reflexivity]);
      try discriminate.
  - destruct images as [|img r], isLoading; simpl; try discriminate.
    intros raw [= <-]. split; [discriminate|].
    split; [|reflexivity].
    change (length (map ImageUploader.rawImageOf (img :: r)) = length (img :: r)).
    apply length_map.
  - intros files Hne Hfree.
    set (imgs := map _ files).
    assert (E : (length imgs =? 0) = false)
      by (subst imgs; destruct files; [contradiction|reflexivity]).
    rewrite E. cbn [orb]. f_equal. subst imgs.
    rewrite map_map. apply map_ext_in. intros g Hin.
    rewrite Forall_forall in Hfree. destruct (Hfree g Hin) as [Hm Hp].
    unfold ImageUploader.rawImageOf, ImageUploader.dataURL.
    change (";base64," ++ snd g)%string
      with (";base64" ++ String "," (snd g))%string.
    rewrite <- !string_app_assoc.
    rewrite split_append, (split_free_string _ _ Hp); [reflexivity|].
    repeat apply free_app; try exact Hm; now apply free_literal.
Qed.

Lemma X5_witness :
  ImageUploader.handleAnalyzeClick
    [ImageUploader.dataURL "image/png" "iVBORw0KGgo="] false =
  Some [Some "iVBORw0KGgo="].
Proof.
  destruct (X5_handleAnalyzeClick [] false) as (_ & _ & H).
  apply (H [("image/png", "iVBORw0KGgo=")]).
  - discriminate.
  - repeat constructor; now apply free_literal.
Defined.

(** ** Further facts about numbers *)

Lemma this_Qcminus (a b : Qc) : (this (a - b)%Qc == a - b)%Q.
Proof.
  unfold Qcminus, Qcplus, Qcopp, Q2Qc. cbn [this].
  rewrite !Qred_correct. reflexivity.
Qed.



Lemma ltb_Num_false (a b : Qc) : ltb (Num a) (Num b) = false <-> (b <= a)%Qc.
Proof.
  destruct (ltb (Num a) (Num b)) eqn:E.
  - apply ltb_Num in E. split; [discriminate|].
    intros H. now apply Qcle_not_lt in H.
  - split; [|reflexivity]. intros _. apply Qcnot_lt_le. intros H.
    apply ltb_Num in H. congruence.
Qed.


Lemma Qcmax_ge_r (a b : Qc) : (b <= Qcmax a b)%Qc.
Proof. unfold Qcle. rewrite this_Qcmax. apply Q.le_max_r. Qed.




(** ** Further properties: the report *)

(** X6. Whatever the data, the Y axis of the bar chart ends at 100: the
    factor 1.1 on the largest value never shows, and a score above 100 is
    drawn past the axis. Only [NaN] gives [NaN]. *)
Theorem X6_yAxis_ends_at_100 (dataMax : number) :
  (dataMax <> NaN -> Dashboard.yAxisMax dataMax = ofZ 100) /\
  Dashboard.yAxisMax NaN = NaN.
Proof.
  split; [|reflexivity].
  intros H. unfold Dashboard.yAxisMax.
  destruct dataMax as [q| | |]; try reflexivity; [|contradiction].
  unfold ofQ. cbn [times]. unfold ofZ at 2. rewrite Math_max_Num.
  unfold ofZ. cbn [Math_min].
  pose proof (Qcmax_ge_r (q * Q2Qc (11 # 10)) (Q2Qc (inject_Z 100))) as Hge.
  apply Qcle_alt in Hge.
  destruct (Q2Qc (inject_Z 100)
              ?= Qcmax (q * Q2Qc (11 # 10)) (Q2Qc (inject_Z 100)))%Qc eqn:E;
    try reflexivity.
  exfalso. apply Hge. exact E.
Qed.

Lemma X6_witness : Dashboard.yAxisMax (ofZ 250) = ofZ 100.
Proof. apply X6_yAxis_ends_at_100. discriminate. Defined.



Lemma nth_error_mapFrom {A B} (f : A -> nat -> B) (start : nat) (l : list A)
    (i : nat) :
  nth_error (Dashboard.mapFrom f start l) i =
  match nth_error l i with
  | Some x => Some (f x (start + i))
  | None => None
  end.
Proof.
  revert start i. induction l as [|x r IH]; intros start i.
  - now destruct i.
  - destruct i as [|i]; simpl.
    + now rewrite Nat.add_0_r.
    + rewrite IH. now replace (S start + i) with (start + S i) by lia.
Qed.

Lemma length_mapFrom {A B} (f : A -> nat -> B) (start : nat) (l : list A) :
  length (Dashboard.mapFrom f start l) = length l.
Proof.
  revert start. induction l as [|x r IH]; intros start; simpl;
    [reflexivity|now rewrite IH].
Qed.

Lemma subject_bar_fill (data : AnalysisResult) (i : nat) :
  i < length (subjects data) ->
  nth_error (Dashboard.cellFills data) i =
  Some (nth_error Dashboard.COLORS (i mod 6)).
Proof.
  intros H. unfold Dashboard.cellFills, Dashboard.barData.
  rewrite nth_error_mapFrom.
  rewrite nth_error_app1 by now rewrite length_map.
  rewrite nth_error_map.
  destruct (nth_error (subjects data) i) as [s|] eqn:E.
  - reflexivity.
  - apply nth_error_None in E. lia.
Qed.

Lemma palette_at (k : nat) :
  k < 6 ->
  exists c, nth_error Dashboard.COLORS k = Some c /\ c <> "#F59E0B".
Proof.
  intros H.
  destruct k as [|[|[|[|[|[|k]]]]]]; try lia;
    (eexists; split; [reflexivity|discriminate]).
Qed.

Lemma palette_neighbours (i : nat) :
  nth_error Dashboard.COLORS (i mod 6) <>
  nth_error Dashboard.COLORS (S i mod 6).
Proof.
  replace (S i) with (i + 1) by lia.
  rewrite Nat.Div0.add_mod.
  pose proof (Nat.mod_upper_bound i 6) as H.
  destruct (i mod 6) as [|[|[|[|[|[|k]]]]]]; try (simpl; discriminate).
  lia.
Qed.

(** X8. Every bar of the chart gets a colour, never [undefined]: the
    average bar, the last one, is amber, each subject bar takes the palette
    colour at its position modulo 6, none of which is amber, and two
    neighbouring subject bars never share a colour. *)
Theorem X8_bar_colours (data : AnalysisResult) :
  let n := length (subjects data) in
  length (Dashboard.cellFills data) = S n /\
  nth_error (Dashboard.cellFills data) n = Some (Some "#F59E0B") /\
  (forall i, i < n ->
     exists c,
       nth_error (Dashboard.cellFills data) i = Some (Some c) /\
       nth_error Dashboard.COLORS (i mod 6) = Some c /\
       c <> "#F59E0B") /\
  (forall i, S i < n ->
     nth_error (Dashboard.cellFills data) i <>
     nth_error (Dashboard.cellFills data) (S i)).
Proof.
  intros n. subst n. split; [|split; [|split]].
  - unfold Dashboard.cellFills, Dashboard.barData.
    rewrite length_mapFrom, length_app, length_map. simpl. lia.
  - unfold Dashboard.cellFills, Dashboard.barData.
    rewrite nth_error_mapFrom.
    rewrite nth_error_app2 by (rewrite length_map; lia).
    rewrite length_map, Nat.sub_diag. reflexivity.
  - intros i Hi. rewrite (subject_bar_fill data i Hi).
    destruct (palette_at (i mod 6)) as (c & Hc & Hamber).
    + apply Nat.mod_upper_bound. discriminate.
    + exists c. rewrite Hc. now repeat split.
  - intros i Hi.
    rewrite (subject_bar_fill data i) by lia.
    rewrite (subject_bar_fill data (S i) Hi).
    intros [= H]. now apply (palette_neighbours i).
Qed.

Lemma X8_witness :
  exists c,
    nth_error (Dashboard.cellFills (sampleResult "Asha")) 0 = Some (Some c) /\
    c <> "#F59E0B".
Proof.
  destruct (X8_bar_colours (sampleResult "Asha")) as (_ & _ & H & _).
  destruct (H 0) as (c & Hc & _ & Hamber).
  - simpl. lia.
  - exists c. now split.
Defined.

(** *** The file name *)











(** *** [handleDownloadPDF] *)

Lemma not_gtb_leb (x y : number) :
  isFinite x = true -> isFinite y = true -> gtb x y = false -> leb x y = true.
Proof.
  destruct x as [a| | |], y as [b| | |]; try discriminate.
  intros _ _ H. unfold gtb in H. apply ltb_Num_false in H.
  now apply leb_Num.
Qed.






(** X11. On a page of finite height, the captured image is drawn where it
    stands if it ends above the bottom margin of 20, and otherwise at the
    top of a fresh page; the next block starts 10 below its end. On a page
    at least 80 high the heading of the summary is never drawn lower than
    60 above the bottom: it stays where the text stands, or moves to the
    top of a fresh page. *)
Theorem X11_layout (env : Dashboard.Env) (data : AnalysisResult) (P : Qc) :
  Dashboard.pageHeight env = Num P ->
  (forall canvas currentY,
     isFinite currentY = true ->
     let w := minus (Dashboard.pageWidth env) (ofZ 40) in
     let h := div (times (Dashboard.height canvas) w) (Dashboard.width canvas) in
     exists y,
       snd (Dashboard.placeImage env canvas currentY) = add y (add h (ofZ 10)) /\
       ((fst (Dashboard.placeImage env canvas currentY) =
           [Dashboard.AddImage (Dashboard.toDataURL canvas) "PNG" (ofZ 20) y w h] /\
         y = currentY /\
         (isFinite h = true ->
            leb (add y h) (minus (Num P) (ofZ 20)) = true)) \/
        (fst (Dashboard.placeImage env canvas currentY) =
           [Dashboard.AddPage;
            Dashboard.AddImage (Dashboard.toDataURL canvas) "PNG" (ofZ 20) y w h] /\
         y = ofZ 20 /\
         gtb (add currentY h) (minus (Num P) (ofZ 20)) = true))) /\
  (forall currentY,
     isFinite currentY = true -> leb (ofZ 80) (Num P) = true ->
     exists pre y rest,
       Dashboard.summaryCommands env data currentY =
         pre ++ [ Dashboard.SetFontSize (ofZ 14);
                  Dashboard.SetTextColor [ofZ 79; ofZ 70; ofZ 229];
                  Dashboard.Text ["Analysis Summary"] (ofZ 20) y None ] ++ rest /\
       leb y (minus (Num P) (ofZ 60)) = true /\
       ((pre = [] /\ y = currentY) \/ (pre = [Dashboard.AddPage] /\ y = ofZ 20))).
Proof.
  intros HP. split.
  - intros canvas currentY Hfin w h.
    unfold Dashboard.placeImage. cbv zeta. fold w. fold h. rewrite HP.
    destruct (gtb (add currentY h) (minus (Num P) (ofZ 20))) eqn:G.
    + exists (ofZ 20). split; [reflexivity|]. right. now repeat split.
    + exists currentY. split; [reflexivity|]. left.
      split; [reflexivity|]. split; [reflexivity|].
      intros Hh. apply not_gtb_leb; [|reflexivity|exact G].
      now apply add_finite.
  - intros currentY Hfin H80.
    unfold Dashboard.summaryCommands. cbv zeta. rewrite HP.
    destruct (gtb currentY (minus (Num P) (ofZ 60))) eqn:G.
    + exists [Dashboard.AddPage], (ofZ 20). eexists.
      split; [reflexivity|]. split; [|right; now split].
      unfold ofZ in *. cbn [minus]. apply leb_Num. apply leb_Num in H80.
      unfold Qcle in *. rewrite this_Qcminus.
      change (this (Q2Qc (inject_Z 80))) with (80 # 1)%Q in H80.
      change (this (Q2Qc (inject_Z 20))) with (20 # 1)%Q.
      change (this (Q2Qc (inject_Z 60))) with (60 # 1)%Q.
      lra.
    + exists [], currentY. eexists.
      split; [reflexivity|]. split; [|left; now split].
      now apply not_gtb_leb.
Qed.

Lemma X11_witness :
  exists w h,
    fst (Dashboard.placeImage (sampleEnv None) sampleCanvas (ofZ 85)) =
    [Dashboard.AddImage "data:image/png;base64,AAAA" "PNG"
       (ofZ 20) (ofZ 85) w h].
Proof.
  destruct (X11_layout (sampleEnv None) (sampleResult "Asha")
                       (Q2Qc (inject_Z 297)) eq_refl) as [H _].
  destruct (H sampleCanvas (ofZ 85) eq_refl)
    as (y & _ & [(E & -> & _) | (_ & _ & G)]).
  - eexists _, _. exact E.
  - vm_compute in G. discriminate G.
Defined.

(** ** Further properties: what [App] shows *)

Lemma stateAfter_handleAnalyze (client : string -> Settled)
    (images : list string) (st : App.State) :
  View.stateAfter (handleAnalyze client images st []) =
  match successesOf (map client images) with
  | [] => App.mkState [] (App.activeResultIndex st) None batchFailed
  | v :: r =>
      App.mkState (v :: r) (-1)%Z (Some (classAverageOf (v :: r)))
        (batchSucceeded (length (v :: r))
                        (length (failuresOf (map client images))))
  end.
Proof.
  rewrite handleAnalyze_run.
  now destruct (successesOf (map client images)).
Qed.



(** X13. After a run the page shows either the error banner or the
    results, never both and never neither: the error banner, with the
    introduction, exactly when no call succeeded; the results and the class
    card exactly when one did; the green notice exactly when some calls
    succeeded and some failed. The uploader is no longer loading. *)
Theorem X13_banners_after_run (client : string -> Settled)
    (images : list string) (st : App.State) :
  let st' := View.stateAfter (handleAnalyze client images st []) in
  let successes := successesOf (map client images) in
  let failures := failuresOf (map client images) in
  (View.showError st' = true <-> successes = []) /\
  (View.showResults st' = true <-> successes <> []) /\
  View.showError st' = negb (View.showResults st') /\
  View.showIntro st' = View.showError st' /\
  View.showClassCard st' = View.showResults st' /\
  (View.showSuccess st' = true <-> successes <> [] /\ failures <> []) /\
  View.isLoading st' = false.
Proof.
  intros st' successes failures. subst st' successes failures.
  rewrite stateAfter_handleAnalyze.
  destruct (successesOf (map client images)) as [|v r] eqn:E.
  - cbn. repeat split; try reflexivity; try discriminate; try tauto.
  - unfold View.showError, View.showResults, View.showIntro,
      View.showClassCard, View.showSuccess, View.isLoading.
    cbn [App.results App.processingState App.classAverageData
         batchSucceeded status statusMessage length Nat.ltb Nat.leb Nat.eqb
         View.statusIs View.isSome andb negb].
    split; [split; discriminate|].
    split; [split; [discriminate|reflexivity]|].
    split; [reflexivity|]. split; [reflexivity|]. split; [reflexivity|].
    split; [|reflexivity].
    destruct (failuresOf (map client images)) as [|e es]; cbn.
    + split; [discriminate|]. intros [_ H]. now contradiction H.
    + split; [|reflexivity]. intros _. split; discriminate.
Qed.

(** *** The selection *)

Lemma reachable_selectionValid (client : string -> Settled) (st : App.State) :
  View.reachable client st -> selectionValid st.
Proof.
  induction 1 as [|st a Hreach IH Hoff].
  - unfold selectionValid. cbn. repeat split; auto; try tauto.
  - destruct a as [images| |idx]; cbn [View.perform].
    + rewrite stateAfter_handleAnalyze.
      destruct (successesOf (map client images)) as [|v r];
        unfold selectionValid; cbn.
      * repeat split; auto; try tauto.
      * repeat split; auto; try tauto; try discriminate.
    + destruct IH as (H1 & H2 & H3).
      unfold selectionValid, View.stateAfter, setActiveResultIndex. cbn.
      repeat split; auto.
    + destruct IH as (H1 & H2 & H3).
      unfold selectionValid, View.stateAfter, setActiveResultIndex. cbn.
      split; [exact H1|]. split; [|exact H3].
      right. right.
      unfold View.offered in Hoff. apply andb_prop in Hoff.
      destruct Hoff as [_ Hidx]. apply Nat.ltb_lt in Hidx. lia.
Qed.

Lemma arrayAt_in_range {A} (l : list A) (i : Z) :
  (0 <= i < Z.of_nat (length l))%Z -> exists x, arrayAt l i = Some x /\ In x l.
Proof.
  intros H. unfold arrayAt.
  replace (i <? 0)%Z with false by (symmetry; apply Z.ltb_ge; lia).
  destruct (nth_error l (Z.to_nat i)) as [x|] eqn:E.
  - exists x. split; [reflexivity|]. now apply nth_error_In in E.
  - apply nth_error_None in E. lia.
Qed.

(** X14. In every state a session can reach by submitting batches and
    clicking the cards on offer, whenever the results are shown the
    detailed report has a record to show and a title: the class average
    when the average is selected, otherwise the result of a student of the
    current batch. The report is never handed [undefined]. *)
Theorem X14_report_always_has_data (client : string -> Settled)
    (st : App.State) :
  View.reachable client st ->
  View.showResults st = true ->
  exists data title,
    View.dashboardData st = Some data /\
    View.reportTitle st = Some title /\
    ((App.activeResultIndex st = (-1)%Z /\
      App.classAverageData st = Some data /\
      title = "Class Average Overview") \/
     (In data (App.results st) /\
      arrayAt (App.results st) (App.activeResultIndex st) = Some data /\
      title = studentName data)).
Proof.
  intros Hreach Hshow.
  destruct (reachable_selectionValid client st Hreach) as (H1 & H2 & _).
  unfold View.showResults in Hshow. apply Nat.ltb_lt in Hshow.
  assert (Hne : App.results st <> [])
    by (intros E; rewrite E in Hshow; simpl in Hshow; lia).
  specialize (H1 Hne).
  destruct (App.classAverageData st) as [avg|] eqn:Eavg; [|contradiction].
  unfold View.dashboardData, View.reportTitle, View.averageSelected.
  rewrite Eavg. cbn [View.isSome].
  destruct H2 as [H2 | [H2 | H2]]; [contradiction| |].
  - rewrite H2. cbn. exists avg, "Class Average Overview".
    split; [reflexivity|]. split; [reflexivity|]. left. now repeat split.
  - replace (App.activeResultIndex st =? -1)%Z with false
      by (symmetry; apply Z.eqb_neq; lia).
    cbn [andb].
    destruct (arrayAt_in_range _ _ H2) as (res & Hres & Hin).
    rewrite Hres. exists res, (studentName res).
    split; [reflexivity|]. split; [reflexivity|]. right. now repeat split.
Qed.

Lemma X14_witness :
  exists data,
    View.dashboardData
      (View.perform sampleClient
         (View.perform sampleClient App.initial
            (View.Analyze ["first"; "blurred"; "third"]))
         (View.SelectStudent 1)) = Some data /\
    studentName data = "third".
Proof.
  destruct (X14_report_always_has_data sampleClient
              (View.perform sampleClient
                 (View.perform sampleClient App.initial
                    (View.Analyze ["first"; "blurred"; "third"]))
                 (View.SelectStudent 1)))
    as (data & title & Hdata & _ & _).
  - apply View.reachable_step; [|reflexivity].
    apply View.reachable_step; [|reflexivity].
    apply View.reachable_initial.
  - reflexivity.
  - exists data. split; [exact Hdata|].
    vm_compute in Hdata. injection Hdata as <-. reflexivity.
Defined.

(** X15. The numbers agree: the report computes its average score as the
    cards of [App] do, so a card shows the number its report will show;
    and for the class average built by a run, the card, the report and the
    [percentage] stored in the record are one and the same number. *)
Theorem X15_average_numbers_agree :
  (forall data,
     Dashboard.averageScore data = calculateAverageScore (Some (subjects data))) /\
  (forall st,
     View.studentCardScores st = map Dashboard.averageScore (App.results st)) /\
  (forall client images st avg,
     App.classAverageData
       (View.stateAfter (handleAnalyze client images st [])) = Some avg ->
     View.classCardScore
       (View.stateAfter (handleAnalyze client images st [])) =
       Some (percentage avg) /\
     Dashboard.averageScore avg = percentage avg).
Proof.
  split; [reflexivity|]. split; [reflexivity|].
  intros client images st avg. rewrite stateAfter_handleAnalyze.
  destruct (successesOf (map client images)) as [|v r]; cbn; [discriminate|].
  intros [= <-]. split; reflexivity.
Qed.

Lemma X15_witness :
  exists avg,
    App.classAverageData
      (View.stateAfter (handleAnalyze sampleClient ["first"] App.initial []))
      = Some avg /\
    Dashboard.averageScore avg = percentage avg.
Proof.
  eexists. split; [reflexivity|].
  destruct X15_average_numbers_agree as (_ & _ & H).
  apply (H sampleClient ["first"] App.initial). reflexivity.
Defined.

(** ** Further properties: the extraction client *)

Lemma failureLines_reasons (outcomes : list Settled) (text : string)
    (reason : Error) :
  In (ConsoleError text reason) (failureLines outcomes) ->
  text = "Analysis failed for one document:" /\ In (rejected reason) outcomes.
Proof.
  unfold failureLines, failuresOf. rewrite in_map_iff.
  intros (e & [= <- <-] & Hin). split; [reflexivity|].
  apply in_flat_map in Hin. destruct Hin as (o & Ho & He).
  destruct o as [v|e']; [contradiction|].
  destruct He as [<- | []]. exact Ho.
Qed.

(** X16. [analyzeMarksheet] fulfils with the parsed record exactly when the
    request returns a non-empty text that parses, and then logs nothing.
    Otherwise (the request throws, the text is missing or empty, or the
    parse throws) it logs the cause once and rejects with one fixed error,
    never with the cause. So in a batch run on this client every failure
    line of [handleAnalyze] carries that fixed error, and a batch whose
    requests all fail ends in the batch-level error state. *)
Theorem X16_client_outcomes
    (generateContent : string -> Error + GeminiService.Response)
    (JSON_parse : string -> Error + AnalysisResult) :
  let analyze := GeminiService.analyzeMarksheet generateContent JSON_parse in
  let settle := GeminiService.settle generateContent JSON_parse in
  (forall img value,
     settle img = fulfilled value <->
     exists c r,
       generateContent img = inr (GeminiService.mkResponse (Some (String c r))) /\
       JSON_parse (String c r) = inr value) /\
  (forall img value, settle img = fulfilled value -> snd (analyze img) = []) /\
  (forall img reason,
     settle img = rejected reason ->
     reason = GeminiService.processingFailed /\
     exists cause,
       snd (analyze img) = [ConsoleError "Gemini Analysis Error:" cause]) /\
  (forall img,
     generateContent img = inr (GeminiService.mkResponse None) \/
     generateContent img = inr (GeminiService.mkResponse (Some EmptyString)) ->
     analyze img =
       (rejected GeminiService.processingFailed,
        [ConsoleError "Gemini Analysis Error:" (mkError "No response from AI")])) /\
  (forall images st st' tr,
     handleAnalyze settle images st [] = (inr tt, st', tr) ->
     (forall text reason, In (ConsoleError text reason) tr ->
        reason = GeminiService.processingFailed) /\
     ((forall img, In img images -> exists thrown, generateContent img = inl thrown) ->
        App.processingState st' = batchFailed /\ App.results st' = [])).
Proof.
  intros analyze settle. subst analyze settle.
  assert (Hrej : forall img reason,
            GeminiService.settle generateContent JSON_parse img
              = rejected reason ->
            reason = GeminiService.processingFailed).
  { intros img reason.
    unfold GeminiService.settle, GeminiService.analyzeMarksheet.
    destruct (GeminiService.request generateContent JSON_parse img);
      cbn; congruence. }
  split; [|split; [|split; [|split]]].
  - intros img value.
    unfold GeminiService.settle, GeminiService.analyzeMarksheet,
      GeminiService.request.
    destruct (generateContent img) as [thrown | [[[|c r]|]]] eqn:G; cbn.
    + split; [discriminate|]. intros (c & r & [=] & _).
    + split; [discriminate|]. intros (c & r & [=] & _).
    + destruct (JSON_parse (String c r)) as [thrown | v] eqn:J; cbn.
      * split; [discriminate|]. intros (c' & r' & [= <- <-] & HJ). congruence.
      * split.
        -- intros [= <-]. now exists c, r.
        -- intros (c' & r' & [= <- <-] & HJ). congruence.
    + split; [discriminate|]. intros (c & r & [=] & _).
  - intros img value.
    unfold GeminiService.settle, GeminiService.analyzeMarksheet,
      GeminiService.request.
    destruct (generateContent img) as [thrown | [[[|c r]|]]]; cbn;
      try discriminate.
    destruct (JSON_parse (String c r)); cbn; [discriminate|reflexivity].
  - intros img reason H. split; [now apply (Hrej img)|].
    revert H.
    unfold GeminiService.settle, GeminiService.analyzeMarksheet,
      GeminiService.request.
    destruct (generateContent img) as [thrown | [[[|c r]|]]]; cbn;
      try (intros _; eexists; reflexivity).
    destruct (JSON_parse (String c r)); cbn;
      [intros _; eexists; reflexivity|discriminate].
  - intros img [H | H];
      unfold GeminiService.analyzeMarksheet, GeminiService.request;
      now rewrite H.
  - intros images st st' tr Hrun.
    rewrite handleAnalyze_run in Hrun. cbv zeta in Hrun.
    set (client := GeminiService.settle generateContent JSON_parse) in *.
    assert (Hlines : forall text reason,
               In (ConsoleError text reason) (failureLines (map client images)) ->
               reason = GeminiService.processingFailed).
    { intros text reason Hin.
      apply failureLines_reasons in Hin. destruct Hin as [_ Hin].
      apply in_map_iff in Hin. destruct Hin as (img & Himg & _).
      now apply (Hrej img). }
    split.
    + intros text reason Hin.
      destruct (successesOf (map client images)) as [|v r];
        injection Hrun as <- <-; cbn [app] in Hin.
      * now apply (Hlines text).
      * apply in_app_iff in Hin. destruct Hin as [Hin | [Hin | []]].
        -- now apply (Hlines text).
        -- discriminate Hin.
    + intros Hall.
      assert (E : successesOf (map client images) = []).
      { clear Hrun Hlines. induction images as [|img r IH]; [reflexivity|].
        simpl. destruct (Hall img (or_introl eq_refl)) as [thrown Hthrown].
        unfold client at 1.
        unfold GeminiService.settle, GeminiService.analyzeMarksheet,
          GeminiService.request. rewrite Hthrown. cbn.
        apply IH. intros i Hi. apply Hall. now right. }
      rewrite E in Hrun. injection Hrun as <- _. split; reflexivity.
Qed.

Lemma X16_witness :
  GeminiService.settle sampleGenerate sampleParse "first" =
    fulfilled (sampleResult "first") /\
  GeminiService.settle sampleGenerate sampleParse "blurred" =
    rejected GeminiService.processingFailed.
Proof.
  destruct (X16_client_outcomes sampleGenerate sampleParse)
    as (Hok & _ & Hrej & _).
  split.
  - apply Hok. now exists "f"%char, "irst".
  - destruct (GeminiService.settle sampleGenerate sampleParse "blurred")
      as [v|reason] eqn:E; [discriminate E|].
    destruct (Hrej "blurred" reason E) as [-> _]. reflexivity.
Defined.

(** ** Further properties: the aggregation *)















(** *** Normalisation *)












(** *** Averaging the average *)











